(** * Warehouse operation coordinator (backend/index.js)

    A shallow embedding of the coordinator of [src/backend/index.js]: the
    global [systemState], the MQTT message handler with [handleEmergencyStop],
    [handleQrCodeEntry] and [publishMqttMessage], and the HTTP handlers
    [/api/qr-entrada], [/api/salida-particulares], [/api/salida-centro] and
    [/api/reset-emergency] with [verifyPwd], followed by the registration
    route [/api/enviar] with [generateQRCode] and the catalogue routes
    [/api/productos/add] and [/api/productos/remove/:id].

    Modelling conventions.
    - The process state is a [World]: the [systemState] object, the rows of
      the [reparto] table, the [mqttConnected] flag and a trace of the
      observable effects (calls of [publishMqttMessage], the simulation log
      line, errors reported by a [catch] block).
    - Every handler runs to completion on the world it is given; the
      interleaving of two [async] handlers at their [await] points and
      failures of the database connection itself are outside the model.
    - JavaScript numbers that the code handles are integers ([Z]); the
      result of [parseInt] on a device payload may be [NaN].
    - The [id] and [cantidad] fields of a request body or QR payload are
      integers or absent, [lectura] and [password] are strings or absent. *)

From Stdlib Require Import ZArith String Ascii List Bool DecimalString Lia.
From stdpp Require Import base decidable option list gmap strings.

Local Open Scope Z_scope.
#[local] Set Warnings "-register-all".

(** ** JavaScript values *)

Module Js.

(** Result of [parseInt]. *)
Inductive JsNum : Type :=
| NaN
| Num (n : Z).

(** Values produced by [JSON.parse], stored in [systemState] or sent in a
    response body. *)
Inductive JsVal : Type :=
| VUndef
| VNull
| VBool (b : bool)
| VNum (n : Z)
| VStr (s : string)
| VObj (fields : list (string * JsVal)).

Inductive JsError : Type :=
| ReferenceError (name : string)
| TypeError
| SyntaxError
| QueryResultError.

(** How a synchronous piece of code ends. *)
Inductive Completion : Type :=
| Normal
| Throw (e : JsError).

(** [String(n)] for an integer. *)
Definition string_of_Z (n : Z) : string :=
  NilZero.string_of_int (Z.to_int n).

Definition dquote : string := String (ascii_of_nat 34) EmptyString.

Definition quoted (s : string) : string := dquote +:+ s +:+ dquote.

(** [JSON.stringify] of an object literal whose properties are strings
    free of characters that need escaping. *)
Fixpoint stringify_fields (fs : list (string * string)) : string :=
  match fs with
  | [] => EmptyString
  | [(k, v)] => quoted k +:+ ":" +:+ quoted v
  | (k, v) :: rest => quoted k +:+ ":" +:+ quoted v +:+ "," +:+ stringify_fields rest
  end.

Definition JSON_stringify (fs : list (string * string)) : string :=
  "{" +:+ stringify_fields fs +:+ "}".

(** [o[k]] on an object literal. *)
Fixpoint lookup_field (k : string) (fs : list (string * JsVal)) : JsVal :=
  match fs with
  | [] => VUndef
  | (k', v) :: rest => if String.eqb k k' then v else lookup_field k rest
  end.

(** Property read [v.k]: a [TypeError] on [null] and [undefined],
    [undefined] on the other primitives. *)
Definition get_prop (v : JsVal) (k : string) : option JsVal :=
  match v with
  | VUndef | VNull => None
  | VObj fs => Some (lookup_field k fs)
  | _ => Some VUndef
  end.

(** [n === v] for a number [n]. *)
Definition strict_eq_num (n : Z) (v : JsVal) : bool :=
  match v with
  | VNum m => n =? m
  | _ => false
  end.

(** [a === b] where each side is a string or [undefined]. *)
Definition strict_eq_str (a b : option string) : bool :=
  match a, b with
  | Some x, Some y => String.eqb x y
  | None, None => true
  | _, _ => false
  end.

(** Truthiness of a number-or-missing and of a string-or-missing value. *)
Definition truthy_num (v : option Z) : bool :=
  match v with
  | Some n => negb (n =? 0)
  | None => false
  end.

Definition truthy_str (v : option string) : bool :=
  match v with
  | Some s => negb (String.eqb s "")
  | None => false
  end.

(** The number behind a value that passed a truthiness test. *)
Definition if_truthy (v : option Z) : option Z :=
  match v with
  | Some n => if n =? 0 then None else Some n
  | None => None
  end.

(** [v || d] on numbers. *)
Definition or_num (v : option Z) (d : Z) : Z :=
  match v with
  | Some n => if n =? 0 then d else n
  | None => d
  end.

(** [s || d] on strings. *)
Definition or_str (v : option string) (d : string) : string :=
  match v with
  | Some s => if String.eqb s "" then d else s
  | None => d
  end.

End Js.
Import Js.

(** ** The global system state *)

Inductive OpType : Type := entrada | salida_particulares | salida_centro.

Inductive Phase : Type := picking_from_storage.

(** The object stored in [systemState.currentOperation].  No site of the
    source gives it a [mode] property. *)
Record Operation : Type := mkOperation {
  op_type : OpType;
  position : Z;
  op_cantidad : Z;
  productId : JsVal;
  op_almacen : string;
  phase : Phase;
  agvTargetPosition : Z
}.

Record AgvStatus : Type := mkAgvStatus {
  ubicacion : JsVal;
  estado : JsVal
}.

Record SystemState : Type := mkSystemState {
  emergencyStop : bool;
  conveyor1Status : string;
  conveyor2Status : string;
  infrared1Status : JsNum;
  infrared2Status : JsNum;
  agvStatus : AgvStatus;
  pendingBoxes : Z;
  currentOperation : option Operation
}.

Definition systemState : SystemState :=
  {| emergencyStop := false;
     conveyor1Status := "Parado";
     conveyor2Status := "Parado";
     infrared1Status := Num 0;
     infrared2Status := Num 0;
     agvStatus := {| ubicacion := VNum 0; estado := VStr "drop" |};
     pendingBoxes := 0;
     currentOperation := None |}.

Definition set_emergencyStop (b : bool) (s : SystemState) : SystemState :=
  mkSystemState b (conveyor1Status s) (conveyor2Status s) (infrared1Status s)
    (infrared2Status s) (agvStatus s) (pendingBoxes s) (currentOperation s).

Definition set_conveyor1Status (v : string) (s : SystemState) : SystemState :=
  mkSystemState (emergencyStop s) v (conveyor2Status s) (infrared1Status s)
    (infrared2Status s) (agvStatus s) (pendingBoxes s) (currentOperation s).

Definition set_conveyor2Status (v : string) (s : SystemState) : SystemState :=
  mkSystemState (emergencyStop s) (conveyor1Status s) v (infrared1Status s)
    (infrared2Status s) (agvStatus s) (pendingBoxes s) (currentOperation s).

Definition set_infrared1Status (v : JsNum) (s : SystemState) : SystemState :=
  mkSystemState (emergencyStop s) (conveyor1Status s) (conveyor2Status s) v
    (infrared2Status s) (agvStatus s) (pendingBoxes s) (currentOperation s).

Definition set_infrared2Status (v : JsNum) (s : SystemState) : SystemState :=
  mkSystemState (emergencyStop s) (conveyor1Status s) (conveyor2Status s)
    (infrared1Status s) v (agvStatus s) (pendingBoxes s) (currentOperation s).

Definition set_agvStatus (v : AgvStatus) (s : SystemState) : SystemState :=
  mkSystemState (emergencyStop s) (conveyor1Status s) (conveyor2Status s)
    (infrared1Status s) (infrared2Status s) v (pendingBoxes s) (currentOperation s).

Definition set_pendingBoxes (v : Z) (s : SystemState) : SystemState :=
  mkSystemState (emergencyStop s) (conveyor1Status s) (conveyor2Status s)
    (infrared1Status s) (infrared2Status s) (agvStatus s) v (currentOperation s).

Definition set_currentOperation (v : option Operation) (s : SystemState) : SystemState :=
  mkSystemState (emergencyStop s) (conveyor1Status s) (conveyor2Status s)
    (infrared1Status s) (infrared2Status s) (agvStatus s) (pendingBoxes s) v.

(** ** The inventory ledger: table [reparto] *)

Record Reparto : Type := mkReparto {
  r_id : Z;
  r_almacen : string;
  r_lectura : string;
  r_location : option Z;
  r_cantidad : option Z;
  r_timestamp : Z;
  r_timestamp_recepcion : option Z
}.

Module Db.

(** [WHERE id = $1]; an [undefined] parameter is sent as NULL and matches
    no row. *)
Definition where_id (id : option Z) (r : Reparto) : bool :=
  match id with
  | Some n => r_id r =? n
  | None => false
  end.

Definition where_lectura (lectura : option string) (r : Reparto) : bool :=
  match lectura with
  | Some l => String.eqb (r_lectura r) l
  | None => false
  end.

(** [db.oneOrNone]: rejects when more than one row is returned. *)
Definition oneOrNone (rows : list Reparto) : JsError + option Reparto :=
  match rows with
  | [] => inr None
  | [r] => inr (Some r)
  | _ => inl QueryResultError
  end.

(** [SELECT location FROM reparto WHERE location IS NOT NULL AND almacen = $1] *)
Definition select_used_locations (almacen : string) (t : list Reparto) : list Z :=
  omap r_location (List.filter (fun r => String.eqb (r_almacen r) almacen) t).

Definition set_location (loc now : Z) (r : Reparto) : Reparto :=
  mkReparto (r_id r) (r_almacen r) (r_lectura r) (Some loc) (r_cantidad r)
    (r_timestamp r) (Some now).

(** [UPDATE reparto SET location = $1, timestamp_recepcion = NOW() WHERE ...] *)
Definition update_location (sel : Reparto -> bool) (loc now : Z)
    (t : list Reparto) : list Reparto :=
  List.map (fun r => if sel r then set_location loc now r else r) t.

(** [DELETE FROM reparto WHERE id = $1] *)
Definition delete_id (id : option Z) (t : list Reparto) : list Reparto :=
  List.filter (fun r => negb (where_id id r)) t.

End Db.

(** ** Slot allocation *)

(** [new Set(usedLocations.map((row) => parseInt(row.location)))] *)
Definition usedLocationSet (almacen : string) (t : list Reparto) : gset Z :=
  list_to_set (Db.select_used_locations almacen t).

(** The loop [for (let i = 1; i <= 5; i++)], started at [i] with [n]
    iterations left: the first [i] with [!usedLocationSet.has(i)]. *)
Fixpoint scan_positions (used : gset Z) (i : Z) (n : nat) : option Z :=
  match n with
  | O => None
  | S n' => if bool_decide (i ∈ used) then scan_positions used (i + 1) n' else Some i
  end.

Definition availablePosition (used : gset Z) : option Z :=
  scan_positions used 1 5.


(** ** The process state and the device gateway *)

(** Observable effects, in the order they happen. *)
Inductive Event : Type :=
| PublishCall (topic message : string) (sent : bool)
    (* a call of publishMqttMessage on the real path; [sent] tells whether
       mqttClient.publish(topic, message, { qos: 1 }) was reached *)
| SimulationLog (almacen : string)
    (* console.log of a "[Simulation <almacen>] Would ..." line *)
| ErrorLog (e : JsError).
    (* console.error of an error caught by a catch block *)

Record World : Type := mkWorld {
  sys : SystemState;
  reparto : list Reparto;
  mqttConnected : bool;
  trace : list Event
}.

Definition with_sys (f : SystemState -> SystemState) (w : World) : World :=
  mkWorld (f (sys w)) (reparto w) (mqttConnected w) (trace w).

Definition with_reparto (f : list Reparto -> list Reparto) (w : World) : World :=
  mkWorld (sys w) (f (reparto w)) (mqttConnected w) (trace w).

Definition emit (e : Event) (w : World) : World :=
  mkWorld (sys w) (reparto w) (mqttConnected w) (trace w ++ [e]).

(** The messages that reached [mqttClient.publish]. *)
Definition transmitted (tr : list Event) : list (string * string) :=
  omap (fun e => match e with
                 | PublishCall t m true => Some (t, m)
                 | _ => None
                 end) tr.

(** The listeners that maintain [mqttConnected]. *)
Definition on_connect (w : World) : World :=
  mkWorld (sys w) (reparto w) true (trace w).

Definition on_error (w : World) : World :=
  mkWorld (sys w) (reparto w) false (trace w).

Definition on_offline (w : World) : World :=
  mkWorld (sys w) (reparto w) false (trace w).

(** [publishMqttMessage(topic, message, almacen)]; [almacen] is [None] when
    the caller passes two arguments, as every caller in the module does.
    The call of [mqttClient.publish] itself is taken not to throw. *)
Definition publishMqttMessage (topic message : string) (almacen : option string)
    (w : World) : bool * World :=
  if truthy_str almacen && negb (strict_eq_str almacen (Some "Vera")) then
    (true, emit (SimulationLog (or_str almacen "")) w)
  else if negb (mqttConnected w) then
    (false, emit (PublishCall topic message false) w)
  else
    (true, emit (PublishCall topic message true) w).

Definition topic_emergencia : string := "PR2A1/avisos/parada_emergencia".
Definition topic_conveyor_1 : string := "PR2A1/status/conveyor_1".
Definition topic_conveyor_2 : string := "PR2A1/status/conveyor_2".
Definition topic_infrarrojos_1 : string := "PR2A1/status/infrarrojos_1".
Definition topic_infrarrojos_2 : string := "PR2A1/status/infrarrojos_2".
Definition topic_agv : string := "PR2A1/status/agv".
Definition topic_QR : string := "PR2A1/avisos/QR".

Definition accion_conveyor_1 : string := "PR2A1/acciones/conveyor_1".
Definition accion_conveyor_2 : string := "PR2A1/acciones/conveyor_2".
Definition accion_paletizaje : string := "PR2A1/acciones/paletizaje".
Definition cobot_recogida : string := "PR2A1/cobot/recogida".
Definition accion_directriz : string := "PR2A1/acciones/directriz".

(** [systemState.currentOperation?.almacen || "Vera"] *)
Definition emergency_almacen (s : SystemState) : string :=
  or_str (op_almacen <$> currentOperation s) "Vera".

(** [systemState.currentOperation?.mode || "paletizar"]: an operation object
    has no [mode] property, so the read gives [undefined]. *)
Definition op_mode (op : Operation) : option string := None.

Definition emergency_modo (s : SystemState) : string :=
  or_str (currentOperation s ≫= op_mode) "paletizar".

(** The four stop directives, as (topic, payload). *)
Definition stop_directives (s : SystemState) : list (string * string) :=
  [ (accion_conveyor_1, JSON_stringify [("accion", "parada")]);
    (accion_conveyor_2, JSON_stringify [("accion", "parada")]);
    (accion_paletizaje, JSON_stringify [("accion", "parada"); ("modo", emergency_modo s)]);
    (cobot_recogida, JSON_stringify [("accion", "parada")]) ].

Definition handleEmergencyStop (w : World) : World :=
  let almacen := emergency_almacen (sys w) in
  let w1 :=
    if String.eqb almacen "Vera" then
      let w_a := snd (publishMqttMessage accion_conveyor_1
                        (JSON_stringify [("accion", "parada")]) None w) in
      let w_b := snd (publishMqttMessage accion_conveyor_2
                        (JSON_stringify [("accion", "parada")]) None w_a) in
      let w_c := snd (publishMqttMessage accion_paletizaje
                        (JSON_stringify [("accion", "parada");
                                         ("modo", emergency_modo (sys w_b))]) None w_b) in
      snd (publishMqttMessage cobot_recogida
             (JSON_stringify [("accion", "parada")]) None w_c)
    else
      emit (SimulationLog almacen) w in
  with_sys (fun s => set_pendingBoxes 0 (set_currentOperation None s)) w1.

(** ** HTTP handlers *)

(** The fields a handler reads from [req.body]. *)
Record Request : Type := mkRequest {
  body_id : option Z;
  body_password : option string
}.

(** [res.status(status).json(body)] or [res.status(status).send(body)]. *)
Record Response : Type := mkResponse {
  status : Z;
  body : JsVal
}.

(** The property [k] of a response body. *)
Definition body_field (k : string) (res : Response) : JsVal :=
  match body res with
  | VObj fs => lookup_field k fs
  | _ => VUndef
  end.

Definition json_error (code : Z) (msg : string) : Response :=
  {| status := code; body := VObj [("error", VStr msg)] |}.

(** The template literal published by an entrance. *)
Definition directriz_entrada (cantidad pos : Z) : string :=
  "{" +:+ quoted "accion" +:+ ": " +:+ quoted "entrada" +:+ ", "
      +:+ quoted "cantidad" +:+ ": " +:+ quoted (string_of_Z cantidad) +:+ ", "
      +:+ quoted "posicion" +:+ ": " +:+ quoted (string_of_Z pos) +:+ "}".

(** The template literal published by an exit of kind [accion]. *)
Definition directriz_salida (accion : string) (pos boxCount : Z) : string :=
  "{" +:+ quoted "accion" +:+ ": " +:+ quoted accion +:+ ", "
      +:+ quoted "posicion" +:+ ": " +:+ quoted (string_of_Z pos) +:+ ", "
      +:+ quoted "cantidad" +:+ ": " +:+ quoted (string_of_Z boxCount) +:+ "}".

(** The block "Only send MQTT messages for Vera campus" of the entrance and
    exit handlers: one directive on the real path, a log line otherwise. *)
Definition dispatch_directriz (almacen message : string) (w : World) : World :=
  if String.eqb almacen "Vera" then
    snd (publishMqttMessage accion_directriz message None w)
  else
    emit (SimulationLog almacen) w.

(** [app.post("/api/qr-entrada", ...)]; [now] is the value of [NOW()]. *)
Definition qr_entrada (now : Z) (req : Request) (w : World) : Response * World :=
  match if_truthy (body_id req) with
  | None => (json_error 400 "Missing id in QR code", w)
  | Some id =>
    match Db.oneOrNone (List.filter (Db.where_id (Some id)) (reparto w)) with
    | inl _ => (json_error 500 "Error processing QR code entry", w)
    | inr None =>
        (json_error 404 ("Product with code " +:+ string_of_Z id +:+ " not found"), w)
    | inr (Some product) =>
        let almacen := r_almacen product in
        let cantidad := or_num (r_cantidad product) 12 in
        match availablePosition (usedLocationSet almacen (reparto w)) with
        | None =>
            (json_error 400 ("No available positions in warehouse " +:+ almacen), w)
        | Some pos =>
            let op := {| op_type := entrada;
                         position := pos;
                         op_cantidad := cantidad;
                         productId := VNum id;
                         op_almacen := almacen;
                         phase := picking_from_storage;
                         agvTargetPosition := pos |} in
            let w1 := with_sys (set_currentOperation (Some op)) w in
            let w2 := with_sys (set_pendingBoxes cantidad) w1 in
            let w3 := dispatch_directriz almacen (directriz_entrada cantidad pos) w2 in
            let w4 := with_reparto (Db.update_location (Db.where_id (Some id)) pos now) w3 in
            ({| status := 200;
                body := VObj [("success", VBool true);
                              ("location", VNum pos);
                              ("cantidad", VNum cantidad);
                              ("message", VStr ("Product assigned to location "
                                                +:+ string_of_Z pos))] |}, w4)
        end
    end
  end.

(** The success body of the two exit handlers. *)
Definition salida_ok (location boxCount : Z) (almacen : string) : Response :=
  {| status := 200;
     body := VObj [("success", VBool true);
                   ("posicion", VNum location);
                   ("cantidad", VNum boxCount);
                   ("almacen", VStr almacen);
                   ("simulation", VBool (negb (String.eqb almacen "Vera")))] |}.

Section Authorized.

(** [process.env.ADMIN_PWD]; [None] when the variable is not set. *)
Variable ADMIN_PWD : option string.

(** [verifyPwd(req, res)]: [None] when it returns [true], the response it
    has sent when it returns [false]. *)
Definition verifyPwd (req : Request) : option Response :=
  if strict_eq_str (body_password req) ADMIN_PWD then None
  else Some {| status := 403; body := VStr "Forbidden" |}.

(** [app.post("/api/salida-particulares", ...)] *)
Definition salida_particulares_handler (req : Request) (w : World) : Response * World :=
  match verifyPwd req with
  | Some forbidden => (forbidden, w)
  | None =>
    let id := body_id req in
    match Db.oneOrNone (List.filter (Db.where_id id) (reparto w)) with
    | inl _ => (json_error 500 "Error processing salida particulares", w)
    | inr None => (json_error 404 "Reparto record not found", w)
    | inr (Some rep) =>
      match if_truthy (r_location rep) with
      | None =>
          (json_error 400 "This product is not stored in a warehouse location", w)
      | Some location =>
          let almacen := r_almacen rep in
          let boxCount := or_num (r_cantidad rep) 10 in
          let op := {| op_type := salida_particulares;
                       position := location;
                       productId := VStr (r_lectura rep);
                       op_cantidad := boxCount;
                       op_almacen := almacen;
                       phase := picking_from_storage;
                       agvTargetPosition := location |} in
          let w1 := with_sys (set_currentOperation (Some op)) w in
          let w2 := with_sys (set_pendingBoxes boxCount) w1 in
          let w3 := dispatch_directriz almacen
                      (directriz_salida "salida_particulares" location boxCount) w2 in
          let w4 := with_reparto (Db.delete_id id) w3 in
          (salida_ok location boxCount almacen, w4)
      end
    end
  end.

(** [app.post("/api/salida-centro", ...)] *)
Definition salida_centro_handler (req : Request) (w : World) : Response * World :=
  match verifyPwd req with
  | Some forbidden => (forbidden, w)
  | None =>
    let id := body_id req in
    match Db.oneOrNone (List.filter (Db.where_id id) (reparto w)) with
    | inl _ => (json_error 500 "Error processing salida centro", w)
    | inr None => (json_error 404 "Reparto record not found", w)
    | inr (Some rep) =>
      match if_truthy (r_location rep) with
      | None =>
          (json_error 400 "This product is not stored in a warehouse location", w)
      | Some location =>
          let almacen := r_almacen rep in
          let boxCount := or_num (r_cantidad rep) 10 in
          let op := {| op_type := salida_centro;
                       position := location;
                       productId := VStr (r_lectura rep);
                       op_cantidad := boxCount;
                       op_almacen := almacen;
                       phase := picking_from_storage;
                       agvTargetPosition := location |} in
          let w1 := with_sys (set_currentOperation (Some op)) w in
          let w3 := dispatch_directriz almacen
                      (directriz_salida "salida_centro" location boxCount) w1 in
          let w4 := with_reparto (Db.delete_id id) w3 in
          (salida_ok location boxCount almacen, w4)
      end
    end
  end.

(** [app.post("/api/reset-emergency", ...)] *)
Definition reset_emergency (req : Request) (w : World) : Response * World :=
  match verifyPwd req with
  | Some forbidden => (forbidden, w)
  | None =>
      ({| status := 200;
          body := VObj [("success", VBool true);
                        ("message", VStr "Emergency stop reset")] |},
       with_sys (set_emergencyStop false) w)
  end.

End Authorized.

(** [app.get("/api/system-status", ...)]: a read of the state. *)
Definition system_status (w : World) : SystemState * bool :=
  (sys w, mqttConnected w).

(** ** MQTT message handling *)

(** A decoded QR notification: the string under the ["QR Code"] key, if
    any, and the fields read by destructuring. *)
Record QrData : Type := mkQrData {
  qr_wrapper : option string;
  qr_id : option Z;
  qr_cantidad : option Z;
  qr_lectura : option string
}.

(** The function declarations of the module.  The three names
    [handleInfrared1StatusChange], [handleInfrared2StatusChange] and
    [handleAgvReachedPosition] are called by the message handler and are
    declared nowhere, neither as a function nor as a variable or import. *)
Definition declared_functions : list string :=
  [ "handleEmergencyStop"; "handleQrCodeEntry"; "publishMqttMessage";
    "verifyPwd"; "generateQRCode"; "cleanup" ].

(** Evaluating the call [name(...)] of a function the module does not
    declare throws a [ReferenceError]. *)
Definition call_undeclared (name : string) : Completion :=
  if bool_decide (name ∈ declared_functions) then Normal
  else Throw (ReferenceError name).

Section Handlers.

(** The built-in [parseInt] on a payload string. *)
Variable parseInt : string -> JsNum.

(** [JSON.parse]; [None] when it throws a [SyntaxError]. *)
Variable JSON_parse : string -> option JsVal.

(** [JSON.parse] of a QR payload, read at the fields the handler uses;
    [None] when the text is not a JSON object. *)
Variable JSON_parse_qr : string -> option QrData.

(** The payload the handler works on: the parse of the string under
    ["QR Code"] when there is one, the notification itself otherwise. *)
Definition qr_parsedData (qrData : QrData) : option QrData :=
  if truthy_str (qr_wrapper qrData)
  then JSON_parse_qr (or_str (qr_wrapper qrData) "")
  else Some qrData.

(** The [WHERE] clause of the lookup and of the update: by [id] when the
    payload has one, by [lectura] otherwise. *)
Definition qr_selector (parsedData : QrData) : Reparto -> bool :=
  if truthy_num (qr_id parsedData)
  then Db.where_id (qr_id parsedData)
  else Db.where_lectura (qr_lectura parsedData).

(** [async function handleQrCodeEntry(qrData)] *)
Definition handleQrCodeEntry (now : Z) (qrData : QrData) (w : World) : World :=
  match qr_parsedData qrData with
  | None => emit (ErrorLog SyntaxError) w
  | Some parsedData =>
    let id := qr_id parsedData in
    let lectura := qr_lectura parsedData in
    let cantidad := or_num (qr_cantidad parsedData) 12 in
    if negb (truthy_num id) && negb (truthy_str lectura) then w
    else
      match Db.oneOrNone (List.filter (qr_selector parsedData) (reparto w)) with
      | inl e => emit (ErrorLog e) w
      | inr None => w
      | inr (Some product) =>
        let almacen := r_almacen product in
        match availablePosition (usedLocationSet almacen (reparto w)) with
        | None => w
        | Some pos =>
            let op := {| op_type := entrada;
                         position := pos;
                         op_cantidad := cantidad;
                         productId := match if_truthy id with
                                      | Some n => VNum n
                                      | None => VStr (or_str lectura "")
                                      end;
                         op_almacen := almacen;
                         phase := picking_from_storage;
                         agvTargetPosition := pos |} in
            let w1 := with_sys (set_currentOperation (Some op)) w in
            let w2 := with_sys (set_pendingBoxes cantidad) w1 in
            let w3 := dispatch_directriz almacen (directriz_entrada cantidad pos) w2 in
            with_reparto (Db.update_location (qr_selector parsedData) pos now) w3
        end
      end
  end.

(** The [case 'PR2A1/status/agv'] branch: everything inside its [try]. *)
Definition on_agv_status (messageStr : string) (w : World) : World :=
  match JSON_parse messageStr with
  | None => emit (ErrorLog SyntaxError) w
  | Some agv =>
    match get_prop agv "ubicacion", get_prop agv "estado" with
    | Some u, Some e =>
        let w1 := with_sys (set_agvStatus {| ubicacion := u; estado := e |}) w in
        match currentOperation (sys w1) with
        | Some op =>
            if strict_eq_num (agvTargetPosition op) u then
              match call_undeclared "handleAgvReachedPosition" with
              | Throw err => emit (ErrorLog err) w1
              | Normal => w1
              end
            else w1
        | None => w1
        end
    | _, _ => emit (ErrorLog TypeError) w
    end
  end.

(** [mqttClient.on('message', (topic, message) => ...)]: how the listener
    ends and the world it leaves. *)
Definition on_message (now : Z) (topic messageStr : string) (w : World)
    : Completion * World :=
  if String.eqb topic topic_emergencia then
    (Normal, handleEmergencyStop (with_sys (set_emergencyStop true) w))
  else if String.eqb topic topic_conveyor_1 then
    (Normal, with_sys (set_conveyor1Status messageStr) w)
  else if String.eqb topic topic_conveyor_2 then
    (Normal, with_sys (set_conveyor2Status messageStr) w)
  else if String.eqb topic topic_infrarrojos_1 then
    (call_undeclared "handleInfrared1StatusChange",
     with_sys (set_infrared1Status (parseInt messageStr)) w)
  else if String.eqb topic topic_infrarrojos_2 then
    (call_undeclared "handleInfrared2StatusChange",
     with_sys (set_infrared2Status (parseInt messageStr)) w)
  else if String.eqb topic topic_agv then
    (Normal, on_agv_status messageStr w)
  else if String.eqb topic topic_QR then
    match JSON_parse_qr messageStr with
    | None => (Normal, emit (ErrorLog SyntaxError) w)
    | Some qrData => (Normal, handleQrCodeEntry now qrData w)
    end
  else (Normal, w).

End Handlers.

(** * Properties *)

(** ** Slot allocation *)

(** A record of site [a] holds position [q]. *)
Definition occupied (a : string) (t : list Reparto) (q : Z) : Prop :=
  ∃ r, r ∈ t ∧ r_almacen r = a ∧ r_location r = Some q.

(** [p] is the lowest position of 1..5 that no record of site [a] holds. *)
Definition lowest_free (a : string) (t : list Reparto) (p : Z) : Prop :=
  1 ≤ p ≤ 5 ∧ ¬ occupied a t p ∧ ∀ q, 1 ≤ q < p → occupied a t q.

(** The five positions of site [a] are all held. *)
Definition site_full (a : string) (t : list Reparto) : Prop :=
  ∀ q, 1 ≤ q ≤ 5 → occupied a t q.

(** ** Sample worlds *)

Definition row (id : Z) (almacen lectura : string) (location cantidad : option Z)
    : Reparto :=
  mkReparto id almacen lectura location cantidad 0 None.

Definition world_of (t : list Reparto) (connected : bool) : World :=
  mkWorld systemState t connected [].

(** Product 42 waits at Vera, where no record has a location yet. *)
Definition ledger_fresh : list Reparto :=
  [ row 42 "Vera" "leche" None (Some 12);
    row 7 "Gandia" "pan" (Some 1) (Some 6) ].

(** Product 42 waits at Vera, where positions 1 and 2 are held. *)
Definition ledger_two_held : list Reparto :=
  [ row 40 "Vera" "arroz" (Some 1) (Some 12);
    row 41 "Vera" "pasta" (Some 2) (Some 8);
    row 42 "Vera" "leche" None (Some 12);
    row 7 "Gandia" "pan" (Some 3) (Some 6) ].

(** Product 9 waits at Gandia, a site without automation; product 7 is
    stored there at position 1. *)
Definition ledger_gandia : list Reparto :=
  [ row 9 "Gandia" "aceite" None (Some 4);
    row 7 "Gandia" "pan" (Some 1) (Some 6) ].

(** A product registered with an empty site name. *)
Definition ledger_unnamed_site : list Reparto :=
  [ row 5 "" "sal" None (Some 3) ].

(** A world whose active operation is [op]. *)
Definition world_with_operation (op : Operation) (connected : bool) : World :=
  mkWorld (set_currentOperation (Some op) systemState) [] connected [].

Definition operation_at (almacen : string) (pos : Z) : Operation :=
  {| op_type := entrada; position := pos; op_cantidad := 12;
     productId := VNum 42; op_almacen := almacen;
     phase := picking_from_storage; agvTargetPosition := pos |}.

(** Decoders used to run the message handler on sample payloads: a payload
    of digits [1], an AGV report at position 3, a QR payload for product 42. *)
Definition sample_parseInt (s : string) : JsNum :=
  if String.eqb s "1" then Num 1 else NaN.

Definition sample_JSON_parse (s : string) : option JsVal :=
  if String.eqb s "agv-at-3"
  then Some (VObj [("ubicacion", VNum 3); ("estado", VStr "carry")])
  else None.

Definition sample_JSON_parse_qr (s : string) : option QrData :=
  if String.eqb s "qr-42"
  then Some (mkQrData None (Some 42) (Some 12) (Some "leche"))
  else None.

(** Six products wait at Vera, where no position is held. *)
Definition ledger_six_waiting : list Reparto :=
  [ row 1 "Vera" "a" None (Some 12); row 2 "Vera" "b" None (Some 12);
    row 3 "Vera" "c" None (Some 12); row 4 "Vera" "d" None (Some 12);
    row 5 "Vera" "e" None (Some 12); row 6 "Vera" "f" None (Some 12) ].

(** Entrance requests for [ids], served one after the other. *)
Fixpoint run_entrances (now : Z) (ids : list Z) (w : World) : list Response :=
  match ids with
  | [] => []
  | id :: rest =>
      let res := qr_entrada now (mkRequest (Some id) None) w in
      res.1 :: run_entrances (now + 1) rest res.2
  end.

(** The text [{"accion": "entrada", "cantidad": "12", "posicion": "1"}],
    written as its pieces between the double quotes. *)
Definition directive_entrada_12_at_1 : string :=
  String.concat dquote
    [ "{"; "accion"; ": "; "entrada"; ", "; "cantidad"; ": "; "12"; ", ";
      "posicion"; ": "; "1"; "}" ].

(** The texts [{"accion":"parada"}] and
    [{"accion":"parada","modo":"paletizar"}], written as their pieces
    between the double quotes. *)
Definition payload_parada : string :=
  String.concat dquote [ "{"; "accion"; ":"; "parada"; "}" ].

Definition payload_parada_paletizar : string :=
  String.concat dquote
    [ "{"; "accion"; ":"; "parada"; ","; "modo"; ":"; "paletizar"; "}" ].

(** The state reached when product 5, registered with an empty site name,
    has entered: its operation is active and carries the site [""]. *)
Definition world_unnamed_site_active : World :=
  (qr_entrada 1000 (mkRequest (Some 5) None) (world_of ledger_unnamed_site true)).2.

(** ** Registration of a delivery: [/api/enviar] *)

Module Pg.

(** [db.oneOrNone] on the rows of any table. *)
Definition oneOrNone {A : Type} (rows : list A) : JsError + option A :=
  match rows with
  | [] => inr None
  | [r] => inr (Some r)
  | _ => inl QueryResultError
  end.

(** [db.one]: rejects unless exactly one row is returned. *)
Definition one {A : Type} (rows : list A) : JsError + A :=
  match rows with
  | [r] => inr r
  | _ => inl QueryResultError
  end.

End Pg.

(** The fields [/api/enviar] reads from [req.body]. *)
Record EnviarRequest : Type := mkEnviarRequest {
  ev_password : option string;
  ev_lectura : string;
  ev_almacen : string;
  ev_cantidad : option Z
}.

(** The object [qrData] built by [generateQRCode(id, lectura, cantidad)] and
    encoded into the image; writing the image file is outside the model. *)
Definition generateQRCode (id : Z) (lectura : string) (cantidad : Z) : QrData :=
  {| qr_wrapper := None; qr_id := Some id; qr_cantidad := Some cantidad;
     qr_lectura := Some lectura |}.

(** [WHERE almacen = $1 AND lectura = $2 AND timestamp = $3] *)
Definition where_inserted (almacen lectura : string) (currentTime : Z) (r : Reparto) : bool :=
  String.eqb (r_almacen r) almacen && String.eqb (r_lectura r) lectura
  && (r_timestamp r =? currentTime).

(** [app.post("/api/enviar", ...)].  [currentTime] is [new Date()] and
    [new_id] the id the database gives the inserted row; the columns the
    [INSERT] does not list, [location] and [timestamp_recepcion], are the two
    nullable ones and start as NULL.  The result carries the QR data handed
    to [generateQRCode], if the handler gets that far. *)
Definition enviar (ADMIN_PWD : option string) (redirectURL : string)
    (currentTime new_id : Z) (req : EnviarRequest) (w : World)
    : Response * World * option QrData :=
  match verifyPwd ADMIN_PWD (mkRequest None (ev_password req)) with
  | Some forbidden => (forbidden, w, None)
  | None =>
      let cantidadValue := or_num (ev_cantidad req) 12 in
      let w1 := with_reparto
                  (fun t => t ++ [mkReparto new_id (ev_almacen req) (ev_lectura req) None
                                    (Some cantidadValue) currentTime None]) w in
      match Pg.one (List.filter
                      (where_inserted (ev_almacen req) (ev_lectura req) currentTime)
                      (reparto w1)) with
      | inl _ => ({| status := 500; body := VStr "Error inserting data" |}, w1, None)
      | inr insertedRecord =>
          ({| status := 302; body := VStr redirectURL |}, w1,
           Some (generateQRCode (r_id insertedRecord) (ev_lectura req) cantidadValue))
      end
  end.

(** [app.get("/api/repartos", ...)] *)
Definition repartos (w : World) : list Reparto := reparto w.

(** ** The product catalogue: table [producto] *)

Record Producto : Type := mkProducto {
  p_id : string;
  p_producto : string;
  p_shelf_life : Z
}.

(** What the two catalogue handlers read from the request: the
    [Authorization] header, the form password and the product fields. *)
Record ProductRequest : Type := mkProductRequest {
  hdr_authorization : option string;
  pr_password : option string;
  pr_id : string;
  pr_producto : string;
  pr_shelf_life : Z
}.

(** [authHeader && authHeader.startsWith('Bearer ')], giving
    [authHeader.substring(7)] when it holds. *)
Definition bearer_token (authHeader : option string) : option string :=
  match authHeader with
  | Some h =>
      if String.prefix "Bearer " h
      then Some (String.substring 7 (String.length h - 7) h)
      else None
  | None => None
  end.

Definition where_p_id (id : string) (p : Producto) : bool := String.eqb (p_id p) id.

Section Catalogue.

Variable ADMIN_PWD : option string.

(** [error.message] of an error caught by a handler. *)
Variable error_message : JsError -> string.

(** The [try] block of [/api/productos/add], the same on both routes. *)
Definition add_product (req : ProductRequest) (productos : list Producto)
    : Response * list Producto :=
  match Pg.oneOrNone (List.filter (where_p_id (pr_id req)) productos) with
  | inl e =>
      ({| status := 500; body := VStr ("Error adding product: " +:+ error_message e) |},
       productos)
  | inr (Some _) =>
      ({| status := 409;
          body := VStr ("Product with ID " +:+ pr_id req +:+ " already exists") |},
       productos)
  | inr None =>
      ({| status := 201;
          body := VObj [("success", VBool true);
                        ("message", VStr "Producto añadido correctamente");
                        ("product", VObj [("id", VStr (pr_id req));
                                          ("producto", VStr (pr_producto req));
                                          ("shelf_life", VNum (pr_shelf_life req))])] |},
       productos ++ [mkProducto (pr_id req) (pr_producto req) (pr_shelf_life req)])
  end.

(** The [try] block of [/api/productos/remove/:id]; [id] is [req.params.id]
    and [t] the ledger, where [lectura] names the product. *)
Definition remove_product (id : string) (t : list Reparto) (productos : list Producto)
    : Response * list Producto :=
  match Pg.oneOrNone (List.filter (where_p_id id) productos) with
  | inl e =>
      ({| status := 500; body := VStr ("Error removing product: " +:+ error_message e) |},
       productos)
  | inr None =>
      ({| status := 404; body := VStr ("Product with ID " +:+ id +:+ " not found") |},
       productos)
  | inr (Some _) =>
      match Pg.oneOrNone (List.filter (Db.where_lectura (Some id)) t) with
      | inl e =>
          ({| status := 500;
              body := VStr ("Error removing product: " +:+ error_message e) |},
           productos)
      | inr (Some _) =>
          ({| status := 409;
              body := VStr ("Cannot delete product " +:+ id
                            +:+ " because it is in use in the inventory system") |},
           productos)
      | inr None =>
          ({| status := 200;
              body := VObj [("success", VBool true);
                            ("message", VStr "Producto eliminado correctamente");
                            ("id", VStr id)] |},
           List.filter (fun p => negb (where_p_id id p)) productos)
      end
  end.

(** The authorization shared by the two catalogue routes: a bearer token
    when the header carries one, the form password otherwise. *)
Definition catalogue_guard (req : ProductRequest)
    (handler : list Producto -> Response * list Producto)
    (productos : list Producto) : Response * list Producto :=
  match bearer_token (hdr_authorization req) with
  | Some token =>
      if strict_eq_str (Some token) ADMIN_PWD then handler productos
      else ({| status := 403; body := VStr "Invalid authorization token" |}, productos)
  | None =>
      match verifyPwd ADMIN_PWD (mkRequest None (pr_password req)) with
      | Some forbidden => (forbidden, productos)
      | None => handler productos
      end
  end.

(** [app.post("/api/productos/add", ...)] *)
Definition productos_add (req : ProductRequest) (productos : list Producto)
    : Response * list Producto :=
  catalogue_guard req (add_product req) productos.

(** [app.post("/api/productos/remove/:id", ...)] *)
Definition productos_remove (id : string) (req : ProductRequest) (t : list Reparto)
    (productos : list Producto) : Response * list Producto :=
  catalogue_guard req (remove_product id t) productos.

End Catalogue.

(** The request passes the authorization of the catalogue routes. *)
Definition catalogue_authorized (ADMIN_PWD : option string) (req : ProductRequest) : Prop :=
  match bearer_token (hdr_authorization req) with
  | Some token => Some token = ADMIN_PWD
  | None => pr_password req = ADMIN_PWD
  end.

(** ** Ledger invariants *)

(** The (site, position) pairs held by the located records, in ledger order. *)
Definition located (t : list Reparto) : list (string * Z) :=
  omap (fun r => (fun p => (r_almacen r, p)) <$> r_location r) t.

(** No two located records share a site and position, and every held
    position lies in 1..5. *)
Definition slots_ok (t : list Reparto) : Prop :=
  NoDup (located t) ∧ Forall (fun sp => 1 ≤ sp.2 ≤ 5) (located t).

(** Sample catalogue and decoders. *)
Definition catalogue_sample : list Producto :=
  [ mkProducto "leche" "Leche entera" 7; mkProducto "pan" "Pan de molde" 3 ].

Definition sample_error_message (e : JsError) : string :=
  "Multiple rows were not expected.".

Lemma elem_of_usedLocationSet (a : string) (t : list Reparto) (q : Z) :
  q ∈ usedLocationSet a t ↔ occupied a t q.
Proof.
  unfold usedLocationSet, Db.select_used_locations, occupied.
  rewrite elem_of_list_to_set, list_elem_of_omap.
  split.
  - intros (r & Hin & Hloc).
    apply list_elem_of_In, filter_In in Hin as [Hin Ha].
    apply String.eqb_eq in Ha. exists r. by rewrite list_elem_of_In.
  - intros (r & Hin & Ha & Hloc). exists r. split; [|done].
    apply list_elem_of_In, filter_In. split; [by apply list_elem_of_In|].
    by apply String.eqb_eq.
Qed.

Lemma scan_positions_spec (used : gset Z) (n : nat) : ∀ i : Z,
  match scan_positions used i n with
  | Some p => i ≤ p < i + Z.of_nat n ∧ (p ∉ used) ∧ ∀ q, i ≤ q < p → q ∈ used
  | None => ∀ q, i ≤ q < i + Z.of_nat n → q ∈ used
  end.
Proof.
  induction n as [|n IH]; intros i; simpl scan_positions.
  - intros q Hq. lia.
  - case_bool_decide as Hi.
    + specialize (IH (i + 1)). destruct (scan_positions used (i + 1) n) as [p|].
      * destruct IH as (Hr & Hfree & Hbelow). split; [lia|]. split; [done|].
        intros q Hq. destruct (decide (q = i)) as [->|]; [done|]. apply Hbelow. lia.
      * intros q Hq. destruct (decide (q = i)) as [->|]; [done|]. apply IH. lia.
    + split; [lia|]. split; [done|]. intros q Hq. lia.
Qed.

Lemma availablePosition_Some (a : string) (t : list Reparto) (p : Z) :
  availablePosition (usedLocationSet a t) = Some p → lowest_free a t p.
Proof.
  intros H. unfold availablePosition in H.
  pose proof (scan_positions_spec (usedLocationSet a t) 5 1) as Hs.
  rewrite H in Hs. destruct Hs as (Hr & Hfree & Hbelow).
  split; [lia|]. split.
  - by rewrite <- elem_of_usedLocationSet.
  - intros q Hq. apply elem_of_usedLocationSet. by apply Hbelow.
Qed.

Lemma availablePosition_None (a : string) (t : list Reparto) :
  availablePosition (usedLocationSet a t) = None → site_full a t.
Proof.
  intros H. unfold availablePosition in H.
  pose proof (scan_positions_spec (usedLocationSet a t) 5 1) as Hs.
  rewrite H in Hs. intros q Hq. apply elem_of_usedLocationSet, Hs. lia.
Qed.

Lemma lowest_free_unique (a : string) (t : list Reparto) (p p' : Z) :
  lowest_free a t p → lowest_free a t p' → p = p'.
Proof.
  intros (Hr & Hf & Hb) (Hr' & Hf' & Hb').
  destruct (Z.lt_trichotomy p p') as [Hlt|[->|Hgt]]; [|done|].
  - destruct Hf. apply Hb'. lia.
  - destruct Hf'. apply Hb. lia.
Qed.

Lemma lowest_free_not_full (a : string) (t : list Reparto) (p : Z) :
  lowest_free a t p → ¬ site_full a t.
Proof. intros (Hr & Hf & _) Hfull. apply Hf, Hfull, Hr. Qed.

(** A two-argument call of [publishMqttMessage] records one call, sent
    exactly when the client is connected, and touches nothing else. *)
Lemma publishMqttMessage_None (topic message : string) (w : World) :
  publishMqttMessage topic message None w
  = (mqttConnected w, emit (PublishCall topic message (mqttConnected w)) w).
Proof. unfold publishMqttMessage. simpl. by destruct (mqttConnected w). Qed.

Lemma reparto_dispatch_directriz (almacen message : string) (w : World) :
  reparto (dispatch_directriz almacen message w) = reparto w
  ∧ sys (dispatch_directriz almacen message w) = sys w
  ∧ mqttConnected (dispatch_directriz almacen message w) = mqttConnected w.
Proof.
  unfold dispatch_directriz. rewrite publishMqttMessage_None.
  by destruct (String.eqb almacen "Vera").
Qed.

Lemma trace_dispatch_directriz (almacen message : string) (w : World) :
  trace (dispatch_directriz almacen message w)
  = trace w ++ [if String.eqb almacen "Vera"
                then PublishCall accion_directriz message (mqttConnected w)
                else SimulationLog almacen].
Proof.
  unfold dispatch_directriz. rewrite publishMqttMessage_None.
  by destruct (String.eqb almacen "Vera").
Qed.

(** After the ledger update of an entrance the assigned position is held by
    the product's site, so the next scan of that site skips it. *)
Lemma update_location_occupied (id : option Z) (loc now : Z) (t : list Reparto)
    (product : Reparto) :
  In product (List.filter (Db.where_id id) t) →
  occupied (r_almacen product) (Db.update_location (Db.where_id id) loc now t) loc.
Proof.
  intros Hin. apply filter_In in Hin as [Hin Hsel].
  exists (Db.set_location loc now product). split; [|done].
  apply list_elem_of_In, in_map_iff. exists product. by rewrite Hsel.
Qed.

(** Six entrances in a row at an empty site: positions 1 to 5 in order,
    then 400. *)
Example six_entrances_in_a_row :
  (fun res => (status res, body_field "location" res))
    <$> run_entrances 1000 [1; 2; 3; 4; 5; 6] (world_of ledger_six_waiting true)
  = [ (200, VNum 1); (200, VNum 2); (200, VNum 3); (200, VNum 4); (200, VNum 5);
      (400, VUndef) ].
Proof. vm_compute. reflexivity. Qed.

(** C1. An entrance assigns the lowest position of 1..5 that no located
    record of the product's site holds, and when the five positions are held
    it assigns nothing: [/api/qr-entrada] answers 400 and leaves the state
    and the ledger as they were, and [handleQrCodeEntry] returns with the
    world unchanged. *)
Theorem entrance_assigns_lowest_free_slot :
  (∀ (now : Z) (req : Request) (w : World) (id : Z) (product : Reparto),
     if_truthy (body_id req) = Some id →
     Db.oneOrNone (List.filter (Db.where_id (Some id)) (reparto w)) = inr (Some product) →
     (site_full (r_almacen product) (reparto w)
      ∧ qr_entrada now req w =
          (json_error 400 ("No available positions in warehouse " +:+ r_almacen product), w))
     ∨ (∃ pos : Z,
          lowest_free (r_almacen product) (reparto w) pos
          ∧ status (qr_entrada now req w).1 = 200
          ∧ body_field "location" (qr_entrada now req w).1 = VNum pos
          ∧ position <$> currentOperation (sys (qr_entrada now req w).2) = Some pos
          ∧ reparto (qr_entrada now req w).2
            = Db.update_location (Db.where_id (Some id)) pos now (reparto w)))
  ∧
  (∀ (parse : string → option QrData) (now : Z) (qrData parsedData : QrData)
     (w : World) (product : Reparto),
     qr_parsedData parse qrData = Some parsedData →
     truthy_num (qr_id parsedData) || truthy_str (qr_lectura parsedData) = true →
     Db.oneOrNone (List.filter (qr_selector parsedData) (reparto w)) = inr (Some product) →
     (site_full (r_almacen product) (reparto w)
      ∧ handleQrCodeEntry parse now qrData w = w)
     ∨ (∃ pos : Z,
          lowest_free (r_almacen product) (reparto w) pos
          ∧ position <$> currentOperation (sys (handleQrCodeEntry parse now qrData w)) = Some pos
          ∧ reparto (handleQrCodeEntry parse now qrData w)
            = Db.update_location (qr_selector parsedData) pos now (reparto w))).
Proof.
  split.
  - intros now req w id product Hid Hrow.
    unfold qr_entrada. rewrite Hid, Hrow.
    destruct (availablePosition _) as [pos|] eqn:Hpos.
    + right. exists pos. split; [by apply availablePosition_Some|].
      cbn [fst snd status]. split; [done|]. split; [done|].
      destruct (reparto_dispatch_directriz (r_almacen product)
        (directriz_entrada (or_num (r_cantidad product) 12) pos)
        (with_sys (set_pendingBoxes (or_num (r_cantidad product) 12))
           (with_sys (set_currentOperation (Some
              {| op_type := entrada; position := pos;
                 op_cantidad := or_num (r_cantidad product) 12;
                 productId := VNum id; op_almacen := r_almacen product;
                 phase := picking_from_storage; agvTargetPosition := pos |})) w)))
        as (Hr & Hs & _).
      unfold with_reparto at 1 2. cbn [sys reparto]. rewrite Hr, Hs. done.
    + left. split; [by apply availablePosition_None|done].
  - intros parse now qrData pd w product Hpd Hkey Hrow.
    unfold handleQrCodeEntry. rewrite Hpd, Hrow.
    replace (negb (truthy_num (qr_id pd)) && negb (truthy_str (qr_lectura pd)))
      with false by (by rewrite <- negb_orb, Hkey).
    destruct (availablePosition _) as [pos|] eqn:Hpos.
    + right. exists pos. split; [by apply availablePosition_Some|].
      match goal with
      | |- context [dispatch_directriz ?a ?m ?w0] =>
          destruct (reparto_dispatch_directriz a m w0) as (Hr & Hs & _)
      end.
      unfold with_reparto at 1 2. cbn [sys reparto]. rewrite Hr, Hs. done.
    + left. split; [by apply availablePosition_None|done].
Qed.

(** The instance of C1 at product 42 with positions 1 and 2 of Vera held:
    both entrance paths assign position 3. *)
Lemma entrance_assigns_lowest_free_slot_witness :
  (∃ pos : Z, lowest_free "Vera" ledger_two_held pos
     ∧ body_field "location"
         (qr_entrada 1000 (mkRequest (Some 42) None) (world_of ledger_two_held true)).1
       = VNum pos)
  ∧ (∃ pos : Z, lowest_free "Vera" ledger_two_held pos
       ∧ position <$> currentOperation
           (sys (handleQrCodeEntry sample_JSON_parse_qr 1000
                   (mkQrData None (Some 42) (Some 12) None)
                   (world_of ledger_two_held true))) = Some pos).
Proof.
  split.
  - destruct (proj1 entrance_assigns_lowest_free_slot 1000
                (mkRequest (Some 42) None) (world_of ledger_two_held true) 42
                (row 42 "Vera" "leche" None (Some 12)) eq_refl eq_refl)
      as [[_ Hfail]|(pos & Hlow & _ & Hloc & _)].
    + vm_compute in Hfail. discriminate Hfail.
    + exists pos. split; [exact Hlow | exact Hloc].
  - destruct (proj2 entrance_assigns_lowest_free_slot sample_JSON_parse_qr 1000
                (mkQrData None (Some 42) (Some 12) None)
                (mkQrData None (Some 42) (Some 12) None)
                (world_of ledger_two_held true)
                (row 42 "Vera" "leche" None (Some 12)) eq_refl eq_refl eq_refl)
      as [[_ Hfail]|(pos & Hlow & Hop & _)].
    + vm_compute in Hfail. discriminate Hfail.
    + exists pos. split; [exact Hlow | exact Hop].
Defined.

(** ** Emergency stop *)

Lemma sys_handleEmergencyStop (w : World) :
  sys (handleEmergencyStop w) = set_pendingBoxes 0 (set_currentOperation None (sys w)).
Proof.
  unfold handleEmergencyStop. rewrite !publishMqttMessage_None.
  by destruct (String.eqb _ _).
Qed.

Lemma emergency_modo_paletizar (s : SystemState) : emergency_modo s = "paletizar".
Proof. unfold emergency_modo. by destruct (currentOperation s). Qed.

Lemma trace_handleEmergencyStop (w : World) :
  trace (handleEmergencyStop w)
  = trace w ++
    (if String.eqb (emergency_almacen (sys w)) "Vera"
     then (fun tm => PublishCall tm.1 tm.2 (mqttConnected w)) <$> stop_directives (sys w)
     else [SimulationLog (emergency_almacen (sys w))]).
Proof.
  unfold handleEmergencyStop. rewrite !publishMqttMessage_None.
  destruct (String.eqb _ _); [|done].
  cbn [snd with_sys trace emit mqttConnected sys fmap list_fmap stop_directives fst].
  by rewrite <- !app_assoc.
Qed.

(** C2. Whatever the payload, a message on the emergency-stop topic sets
    [emergencyStop], empties [currentOperation] and zeroes [pendingBoxes]
    without touching another field of the state, and a second emergency
    message leaves that state as it is. *)
Theorem emergency_stop_clears_state :
  ∀ (parseInt : string → JsNum) (JSON_parse : string → option JsVal)
    (JSON_parse_qr : string → option QrData) (now : Z) (payload : string) (w : World),
    let r := on_message parseInt JSON_parse JSON_parse_qr now topic_emergencia payload w in
    r.1 = Normal
    ∧ emergencyStop (sys r.2) = true
    ∧ currentOperation (sys r.2) = None
    ∧ pendingBoxes (sys r.2) = 0
    ∧ sys r.2 = set_pendingBoxes 0 (set_currentOperation None (set_emergencyStop true (sys w)))
    ∧ ∀ (now' : Z) (payload' : string),
        sys (on_message parseInt JSON_parse JSON_parse_qr now' topic_emergencia payload' r.2).2
        = sys r.2.
Proof.
  intros parseInt JSON_parse JSON_parse_qr now payload w r.
  assert (Hstep : ∀ n p v,
            on_message parseInt JSON_parse JSON_parse_qr n topic_emergencia p v
            = (Normal, handleEmergencyStop (with_sys (set_emergencyStop true) v)))
    by done.
  subst r. rewrite Hstep. cbn [fst snd].
  rewrite sys_handleEmergencyStop. cbn [with_sys sys].
  repeat split.
  intros now' payload'. rewrite Hstep. cbn [snd].
  rewrite sys_handleEmergencyStop. cbn [with_sys sys].
  by rewrite sys_handleEmergencyStop.
Qed.

(** ** The entrance scenario *)

Lemma transmitted_app (tr tr' : list Event) :
  transmitted (tr ++ tr') = transmitted tr ++ transmitted tr'.
Proof. apply omap_app. Qed.

Lemma filter_update_location (id : option Z) (loc now : Z) (t : list Reparto) :
  List.filter (Db.where_id id) (Db.update_location (Db.where_id id) loc now t)
  = List.map (Db.set_location loc now) (List.filter (Db.where_id id) t).
Proof.
  unfold Db.update_location.
  induction t as [|r t IH]; [done|]. simpl.
  destruct (Db.where_id id r) eqn:Hsel; simpl.
  - replace (Db.where_id id (Db.set_location loc now r)) with true
      by (by destruct id).
    by rewrite IH.
  - by rewrite Hsel, IH.
Qed.

Lemma update_location_other (id : option Z) (loc now : Z) (t : list Reparto) (r : Reparto) :
  r ∈ t → Db.where_id id r = false → r ∈ Db.update_location (Db.where_id id) loc now t.
Proof.
  intros Hin Hsel. unfold Db.update_location.
  apply list_elem_of_In, in_map_iff. exists r.
  rewrite Hsel. split; [done|]. by apply list_elem_of_In.
Qed.

(** C3. With record 42 at "Vera", quantity 12, no location, and no other
    located record at "Vera", start-entrance(42) answers 200 with location 1
    and cantidad 12, hands the directive
    [{"accion": "entrada", "cantidad": "12", "posicion": "1"}] to
    [publishMqttMessage] on the directive topic (which sends it when the
    client is connected), and sets the row to location 1 with the receipt
    timestamp of the update. *)
Theorem start_entrance_scenario :
  ∀ (now : Z) (password : option string) (w : World) (r : Reparto),
    List.filter (Db.where_id (Some 42)) (reparto w) = [r] →
    r_almacen r = "Vera" →
    r_cantidad r = Some 12 →
    r_location r = None →
    (∀ r', r' ∈ reparto w → r_almacen r' = "Vera" → r_id r' ≠ 42 → r_location r' = None) →
    let res := qr_entrada now (mkRequest (Some 42) password) w in
    status res.1 = 200
    ∧ body_field "location" res.1 = VNum 1
    ∧ body_field "cantidad" res.1 = VNum 12
    ∧ trace res.2
      = trace w ++ [PublishCall accion_directriz directive_entrada_12_at_1 (mqttConnected w)]
    ∧ (mqttConnected w = true →
       transmitted (trace res.2)
       = transmitted (trace w) ++ [(accion_directriz, directive_entrada_12_at_1)])
    ∧ List.filter (Db.where_id (Some 42)) (reparto res.2)
      = [mkReparto 42 "Vera" (r_lectura r) (Some 1) (Some 12) (r_timestamp r) (Some now)]
    ∧ (∀ r', r' ∈ reparto w → r_id r' ≠ 42 → r' ∈ reparto res.2).
Proof.
  intros now password w r Hrow Hsite Hqty Hloc Hother res.
  assert (Hid : r_id r = 42).
  { assert (Hin : In r (List.filter (Db.where_id (Some 42)) (reparto w)))
      by (rewrite Hrow; by left).
    apply filter_In in Hin as [_ Hsel]. by apply Z.eqb_eq in Hsel. }
  assert (Hfree : 1 ∉ usedLocationSet "Vera" (reparto w)).
  { intros Hin. apply elem_of_usedLocationSet in Hin as (r' & Hin & Ha & Hl).
    destruct (decide (r_id r' = 42)) as [Heq|Hne].
    - assert (Hin' : In r' (List.filter (Db.where_id (Some 42)) (reparto w))).
      { apply filter_In. split; [by apply list_elem_of_In|]. by apply Z.eqb_eq. }
      rewrite Hrow in Hin'. destruct Hin' as [<-|[]]. congruence.
    - rewrite (Hother r' Hin Ha Hne) in Hl. discriminate Hl. }
  assert (Hpos : availablePosition (usedLocationSet "Vera" (reparto w)) = Some 1).
  { unfold availablePosition. simpl. by rewrite bool_decide_eq_false_2. }
  subst res. unfold qr_entrada. cbn [body_id if_truthy Z.eqb].
  rewrite Hrow. cbn [Db.oneOrNone]. rewrite Hsite, Hqty, Hpos.
  cbn [fst snd status or_num Z.eqb]. unfold with_reparto.
  match goal with
  | |- context [dispatch_directriz ?a ?m ?w0] =>
      pose proof (trace_dispatch_directriz a m w0) as Htr;
      destruct (reparto_dispatch_directriz a m w0) as (Hr & _ & _);
      set (w3 := dispatch_directriz a m w0) in *
  end.
  cbn [reparto trace with_sys mqttConnected String.eqb Ascii.eqb Bool.eqb] in *.
  rewrite Hr. repeat split.
  - exact Htr.
  - intros Hconn. rewrite Htr, transmitted_app, Hconn. done.
  - rewrite filter_update_location, Hrow. cbn [List.map]. unfold Db.set_location.
    by rewrite Hid, Hsite, Hqty.
  - intros r' Hin Hne. apply update_location_other; [done|].
    by apply Z.eqb_neq.
Qed.

Lemma start_entrance_scenario_witness :
  let res := qr_entrada 1000 (mkRequest (Some 42) None) (world_of ledger_fresh true) in
  status res.1 = 200
  ∧ body_field "location" res.1 = VNum 1
  ∧ body_field "cantidad" res.1 = VNum 12
  ∧ transmitted (trace res.2) = [(accion_directriz, directive_entrada_12_at_1)]
  ∧ List.filter (Db.where_id (Some 42)) (reparto res.2)
    = [mkReparto 42 "Vera" "leche" (Some 1) (Some 12) 0 (Some 1000)].
Proof.
  assert (Hother : ∀ r', r' ∈ ledger_fresh → r_almacen r' = "Vera" → r_id r' ≠ 42
                         → r_location r' = None).
  { intros r' Hin Ha Hne. apply list_elem_of_In in Hin.
    destruct Hin as [<-|[<-|[]]]; [done | discriminate Ha]. }
  destruct (start_entrance_scenario 1000 None (world_of ledger_fresh true)
              (row 42 "Vera" "leche" None (Some 12))
              eq_refl eq_refl eq_refl eq_refl Hother)
    as (Hst & Hloc & Hqty & _ & Hsent & Hrow & _).
  exact (conj Hst (conj Hloc (conj Hqty (conj (Hsent eq_refl) Hrow)))).
Defined.

(** ** Dispatch of device messages *)

(** C4. The handlers the listener calls for the infrared topics and for an
    AGV report at the target position are not declared: on an infrared
    message the listener stores the parsed status and then ends with an
    uncaught [ReferenceError]; on an AGV report whose [ubicacion] equals the
    active operation's [agvTargetPosition] the [ReferenceError] is raised and
    swallowed by the surrounding [catch], which only logs it. *)
Theorem undeclared_handlers_raise :
  ∀ (parseInt : string → JsNum) (JSON_parse : string → option JsVal)
    (JSON_parse_qr : string → option QrData) (now : Z) (payload : string) (w : World),
    on_message parseInt JSON_parse JSON_parse_qr now topic_infrarrojos_1 payload w
    = (Throw (ReferenceError "handleInfrared1StatusChange"),
       with_sys (set_infrared1Status (parseInt payload)) w)
    ∧ on_message parseInt JSON_parse JSON_parse_qr now topic_infrarrojos_2 payload w
      = (Throw (ReferenceError "handleInfrared2StatusChange"),
         with_sys (set_infrared2Status (parseInt payload)) w)
    ∧ ∀ (agv u e : JsVal) (op : Operation),
        JSON_parse payload = Some agv →
        get_prop agv "ubicacion" = Some u →
        get_prop agv "estado" = Some e →
        currentOperation (sys w) = Some op →
        strict_eq_num (agvTargetPosition op) u = true →
        on_message parseInt JSON_parse JSON_parse_qr now topic_agv payload w
        = (Normal,
           emit (ErrorLog (ReferenceError "handleAgvReachedPosition"))
             (with_sys (set_agvStatus {| ubicacion := u; estado := e |}) w)).
Proof.
  intros parseInt JSON_parse JSON_parse_qr now payload w.
  split; [done|]. split; [done|].
  intros agv u e op Hparse Hu He Hop Heq.
  unfold on_message. cbn [String.eqb topic_agv topic_emergencia topic_conveyor_1
    topic_conveyor_2 topic_infrarrojos_1 topic_infrarrojos_2].
  replace (String.eqb topic_agv topic_emergencia) with false by done.
  replace (String.eqb topic_agv topic_conveyor_1) with false by done.
  replace (String.eqb topic_agv topic_conveyor_2) with false by done.
  replace (String.eqb topic_agv topic_infrarrojos_1) with false by done.
  replace (String.eqb topic_agv topic_infrarrojos_2) with false by done.
  replace (String.eqb topic_agv topic_agv) with true by done.
  unfold on_agv_status. rewrite Hparse, Hu, He.
  cbn [with_sys sys currentOperation set_agvStatus]. rewrite Hop, Heq. done.
Qed.

Lemma undeclared_handlers_raise_witness :
  (on_message sample_parseInt sample_JSON_parse sample_JSON_parse_qr 1000
     topic_infrarrojos_1 "1" (world_of ledger_fresh true)).1
  = Throw (ReferenceError "handleInfrared1StatusChange")
  ∧ trace (on_message sample_parseInt sample_JSON_parse sample_JSON_parse_qr 1000
             topic_agv "agv-at-3" (world_with_operation (operation_at "Vera" 3) true)).2
    = [ErrorLog (ReferenceError "handleAgvReachedPosition")].
Proof.
  split.
  - pose proof (undeclared_handlers_raise sample_parseInt sample_JSON_parse
                  sample_JSON_parse_qr 1000 "1" (world_of ledger_fresh true)) as [H _].
    by rewrite H.
  - pose proof (undeclared_handlers_raise sample_parseInt sample_JSON_parse
                  sample_JSON_parse_qr 1000 "agv-at-3"
                  (world_with_operation (operation_at "Vera" 3) true)) as (_ & _ & H).
    by rewrite (H (VObj [("ubicacion", VNum 3); ("estado", VStr "carry")])
                  (VNum 3) (VStr "carry") (operation_at "Vera" 3)
                  eq_refl eq_refl eq_refl eq_refl eq_refl).
Defined.

(** ** Authorization *)

Lemma strict_eq_str_true (a b : option string) : strict_eq_str a b = true ↔ a = b.
Proof.
  destruct a as [x|], b as [y|]; simpl; try (split; congruence).
  rewrite String.eqb_eq. split; congruence.
Qed.

Lemma verifyPwd_pass (ADMIN_PWD : option string) (req : Request) :
  body_password req = ADMIN_PWD → verifyPwd ADMIN_PWD req = None.
Proof.
  intros H. unfold verifyPwd.
  by rewrite (proj2 (strict_eq_str_true _ _) H).
Qed.

Lemma verifyPwd_reject (ADMIN_PWD : option string) (req : Request) :
  body_password req ≠ ADMIN_PWD →
  verifyPwd ADMIN_PWD req = Some {| status := 403; body := VStr "Forbidden" |}.
Proof.
  intros H. unfold verifyPwd.
  destruct (strict_eq_str _ _) eqn:E; [|done].
  by apply strict_eq_str_true in E.
Qed.

(** C5, as stated, fails for start entrance: a request to [/api/qr-entrada]
    that carries no password is served, and changes the state and the
    ledger. *)
Lemma entrance_without_credential_is_served :
  let w := world_of ledger_fresh true in
  let res := qr_entrada 1000 (mkRequest (Some 42) None) w in
  status res.1 = 200 ∧ status res.1 ≠ 403
  ∧ sys res.2 ≠ sys w ∧ reparto res.2 ≠ reparto w.
Proof. vm_compute. repeat split; discriminate. Qed.

(** C5, amended. A start-exit or reset-emergency request whose password
    field is not the configured [ADMIN_PWD] (a missing field against a
    configured password included) is answered 403 "Forbidden" and changes
    neither the state nor the ledger; the start-entrance handler does not
    read the password field at all. *)
Theorem unauthorized_exit_and_reset_rejected :
  ∀ (ADMIN_PWD : option string) (req : Request) (w : World),
    body_password req ≠ ADMIN_PWD →
    salida_particulares_handler ADMIN_PWD req w
      = ({| status := 403; body := VStr "Forbidden" |}, w)
    ∧ salida_centro_handler ADMIN_PWD req w
      = ({| status := 403; body := VStr "Forbidden" |}, w)
    ∧ reset_emergency ADMIN_PWD req w
      = ({| status := 403; body := VStr "Forbidden" |}, w)
    ∧ ∀ (now : Z) (password : option string),
        qr_entrada now req w = qr_entrada now (mkRequest (body_id req) password) w.
Proof.
  intros ADMIN_PWD req w Hbad.
  unfold salida_particulares_handler, salida_centro_handler, reset_emergency.
  rewrite (verifyPwd_reject _ _ Hbad). done.
Qed.

Lemma unauthorized_exit_and_reset_rejected_witness :
  let w := world_of ledger_gandia true in
  salida_particulares_handler (Some "secret") (mkRequest (Some 7) (Some "guess")) w
    = ({| status := 403; body := VStr "Forbidden" |}, w)
  ∧ salida_centro_handler (Some "secret") (mkRequest (Some 7) None) w
    = ({| status := 403; body := VStr "Forbidden" |}, w)
  ∧ reset_emergency (Some "secret") (mkRequest None (Some "")) w
    = ({| status := 403; body := VStr "Forbidden" |}, w).
Proof.
  intros w.
  assert (Hguess : Some "guess" ≠ Some "secret") by discriminate.
  assert (Hmissing : @None string ≠ Some "secret") by discriminate.
  assert (Hempty : Some "" ≠ Some "secret") by discriminate.
  exact (conj
    (proj1 (unauthorized_exit_and_reset_rejected (Some "secret")
              (mkRequest (Some 7) (Some "guess")) w Hguess))
    (conj
      (proj1 (proj2 (unauthorized_exit_and_reset_rejected (Some "secret")
                       (mkRequest (Some 7) None) w Hmissing)))
      (proj1 (proj2 (proj2 (unauthorized_exit_and_reset_rejected (Some "secret")
                              (mkRequest None (Some "")) w Hempty)))))).
Defined.

(** ** Sites without automation *)

Lemma eqb_Vera_false (almacen : string) :
  almacen ≠ "Vera" → String.eqb almacen "Vera" = false.
Proof. intros H. by apply String.eqb_neq. Qed.

(** C6, as stated, fails for start entrance: the success body of
    [/api/qr-entrada] has no [simulation] property, also at a site other
    than "Vera". *)
Lemma entrance_response_has_no_simulation_flag :
  let res := qr_entrada 1000 (mkRequest (Some 9) None) (world_of ledger_gandia true) in
  status res.1 = 200
  ∧ op_almacen <$> currentOperation (sys res.2) = Some "Gandia"
  ∧ body_field "simulation" res.1 ≠ VBool true.
Proof. vm_compute. repeat split; discriminate. Qed.

(** C6, amended. At a site other than "Vera" a successful start-exit (of
    either kind) answers with [simulation: true], a successful
    start-entrance answers with a body that has no [simulation] property,
    and in all three cases [publishMqttMessage] is not called: the only
    effect on the gateway side is the simulation log line, and nothing is
    transmitted. *)
Theorem simulated_sites_transmit_nothing :
  (∀ (now : Z) (req : Request) (w : World) (id : Z) (product : Reparto),
     if_truthy (body_id req) = Some id →
     Db.oneOrNone (List.filter (Db.where_id (Some id)) (reparto w)) = inr (Some product) →
     r_almacen product ≠ "Vera" →
     status (qr_entrada now req w).1 = 200 →
     body_field "success" (qr_entrada now req w).1 = VBool true
     ∧ body_field "simulation" (qr_entrada now req w).1 = VUndef
     ∧ trace (qr_entrada now req w).2 = trace w ++ [SimulationLog (r_almacen product)]
     ∧ transmitted (trace (qr_entrada now req w).2) = transmitted (trace w))
  ∧
  (∀ (ADMIN_PWD : option string) (req : Request) (w : World) (rep : Reparto),
     Db.oneOrNone (List.filter (Db.where_id (body_id req)) (reparto w)) = inr (Some rep) →
     r_almacen rep ≠ "Vera" →
     (status (salida_particulares_handler ADMIN_PWD req w).1 = 200 →
      body_field "success" (salida_particulares_handler ADMIN_PWD req w).1 = VBool true
      ∧ body_field "simulation" (salida_particulares_handler ADMIN_PWD req w).1 = VBool true
      ∧ trace (salida_particulares_handler ADMIN_PWD req w).2
        = trace w ++ [SimulationLog (r_almacen rep)]
      ∧ transmitted (trace (salida_particulares_handler ADMIN_PWD req w).2)
        = transmitted (trace w))
     ∧
     (status (salida_centro_handler ADMIN_PWD req w).1 = 200 →
      body_field "success" (salida_centro_handler ADMIN_PWD req w).1 = VBool true
      ∧ body_field "simulation" (salida_centro_handler ADMIN_PWD req w).1 = VBool true
      ∧ trace (salida_centro_handler ADMIN_PWD req w).2
        = trace w ++ [SimulationLog (r_almacen rep)]
      ∧ transmitted (trace (salida_centro_handler ADMIN_PWD req w).2)
        = transmitted (trace w))).
Proof.
  split.
  - intros now req w id product Hid Hrow Hsite.
    unfold qr_entrada. rewrite Hid, Hrow.
    destruct (availablePosition _) as [pos|]; [|discriminate].
    intros _. cbn [fst snd]. unfold with_reparto. cbn [trace].
    rewrite trace_dispatch_directriz, (eqb_Vera_false _ Hsite). cbn [with_sys trace].
    split; [done|]. split; [done|]. split; [done|].
    rewrite transmitted_app. simpl. by rewrite app_nil_r.
  - intros ADMIN_PWD req w rep Hrow Hsite.
    unfold salida_particulares_handler, salida_centro_handler.
    destruct (verifyPwd ADMIN_PWD req) as [forbidden|] eqn:Hpwd.
    { unfold verifyPwd in Hpwd. destruct (strict_eq_str _ _); [discriminate|].
      injection Hpwd as <-. split; discriminate. }
    rewrite Hrow.
    destruct (if_truthy (r_location rep)) as [location|]; [|split; discriminate].
    cbn [fst snd]. unfold with_reparto. cbn [trace].
    rewrite !trace_dispatch_directriz, (eqb_Vera_false _ Hsite). cbn [with_sys trace].
    unfold salida_ok, body_field. cbn [body lookup_field String.eqb Ascii.eqb Bool.eqb].
    rewrite (eqb_Vera_false _ Hsite), transmitted_app. simpl. rewrite app_nil_r.
    done.
Qed.

Lemma simulated_sites_transmit_nothing_witness :
  (trace (qr_entrada 1000 (mkRequest (Some 9) None) (world_of ledger_gandia true)).2
   = [SimulationLog "Gandia"])
  ∧ body_field "simulation"
      (salida_particulares_handler (Some "secret")
         (mkRequest (Some 7) (Some "secret")) (world_of ledger_gandia true)).1 = VBool true
  ∧ transmitted
      (trace (salida_centro_handler (Some "secret")
                (mkRequest (Some 7) (Some "secret")) (world_of ledger_gandia true)).2) = [].
Proof.
  assert (Hsite : "Gandia" ≠ "Vera") by discriminate.
  pose proof (proj1 simulated_sites_transmit_nothing 1000 (mkRequest (Some 9) None)
                (world_of ledger_gandia true) 9 (row 9 "Gandia" "aceite" None (Some 4))
                eq_refl eq_refl Hsite eq_refl) as (_ & _ & Hentrada & _).
  pose proof (proj2 simulated_sites_transmit_nothing (Some "secret")
                (mkRequest (Some 7) (Some "secret")) (world_of ledger_gandia true)
                (row 7 "Gandia" "pan" (Some 1) (Some 6)) eq_refl Hsite) as [Hpart Hcentro].
  destruct (Hpart eq_refl) as (_ & Hflag & _).
  destruct (Hcentro eq_refl) as (_ & _ & _ & Hsent).
  exact (conj Hentrada (conj Hflag Hsent)).
Defined.

(** ** Exits *)

Lemma filter_where_id_nil (id : option Z) (t : list Reparto) :
  (∀ r, r ∈ t → Some (r_id r) ≠ id) → List.filter (Db.where_id id) t = [].
Proof.
  intros Hnone. induction t as [|r t IH]; [done|]. simpl.
  destruct (Db.where_id id r) eqn:Hsel.
  - destruct id as [n|]; [|discriminate]. simpl in Hsel. apply Z.eqb_eq in Hsel.
    destruct (Hnone r); [left|congruence].
  - apply IH. intros r' Hin. apply Hnone. by right.
Qed.

(** C7. An authorized start-exit of either kind answers 404 when no record
    has the given id and 400 when the record found has a null location, and
    in both cases returns the world as it was: [systemState] is not written
    and no row is deleted. *)
Theorem exit_failures_change_nothing :
  ∀ (ADMIN_PWD : option string) (req : Request) (w : World),
    body_password req = ADMIN_PWD →
    ((∀ r, r ∈ reparto w → Some (r_id r) ≠ body_id req) →
     salida_particulares_handler ADMIN_PWD req w
       = (json_error 404 "Reparto record not found", w)
     ∧ salida_centro_handler ADMIN_PWD req w
       = (json_error 404 "Reparto record not found", w))
    ∧
    (∀ rep : Reparto,
       Db.oneOrNone (List.filter (Db.where_id (body_id req)) (reparto w)) = inr (Some rep) →
       r_location rep = None →
       salida_particulares_handler ADMIN_PWD req w
         = (json_error 400 "This product is not stored in a warehouse location", w)
       ∧ salida_centro_handler ADMIN_PWD req w
         = (json_error 400 "This product is not stored in a warehouse location", w)).
Proof.
  intros ADMIN_PWD req w Hpwd.
  unfold salida_particulares_handler, salida_centro_handler.
  rewrite (verifyPwd_pass _ _ Hpwd). split.
  - intros Hnone. by rewrite (filter_where_id_nil _ _ Hnone).
  - intros rep Hrow Hnull. by rewrite Hrow, Hnull.
Qed.

Lemma exit_failures_change_nothing_witness :
  let w := world_of ledger_gandia true in
  (salida_particulares_handler (Some "secret") (mkRequest (Some 99) (Some "secret")) w
     = (json_error 404 "Reparto record not found", w)
   ∧ salida_centro_handler (Some "secret") (mkRequest (Some 99) (Some "secret")) w
     = (json_error 404 "Reparto record not found", w))
  ∧
  (salida_particulares_handler (Some "secret") (mkRequest (Some 9) (Some "secret")) w
     = (json_error 400 "This product is not stored in a warehouse location", w)
   ∧ salida_centro_handler (Some "secret") (mkRequest (Some 9) (Some "secret")) w
     = (json_error 400 "This product is not stored in a warehouse location", w)).
Proof.
  intros w.
  assert (Hnone : ∀ r, r ∈ reparto w → Some (r_id r) ≠ Some 99).
  { intros r Hin. apply list_elem_of_In in Hin.
    destruct Hin as [<-|[<-|[]]]; discriminate. }
  exact (conj
    (proj1 (exit_failures_change_nothing (Some "secret")
              (mkRequest (Some 99) (Some "secret")) w eq_refl) Hnone)
    (proj2 (exit_failures_change_nothing (Some "secret")
              (mkRequest (Some 9) (Some "secret")) w eq_refl)
       (row 9 "Gandia" "aceite" None (Some 4)) eq_refl eq_refl)).
Defined.

(** C10. [/api/salida-centro] never writes [pendingBoxes]: the field keeps
    its prior value, also on success, where [currentOperation] becomes the
    new [salida_centro] operation.  A successful [/api/salida-particulares]
    sets [pendingBoxes] to the box count of the operation it stores. *)
Theorem exit_pending_boxes :
  ∀ (ADMIN_PWD : option string) (req : Request) (w : World),
    pendingBoxes (sys (salida_centro_handler ADMIN_PWD req w).2) = pendingBoxes (sys w)
    ∧ (status (salida_centro_handler ADMIN_PWD req w).1 = 200 →
       ∃ op : Operation,
         currentOperation (sys (salida_centro_handler ADMIN_PWD req w).2) = Some op
         ∧ op_type op = salida_centro
         ∧ body_field "cantidad" (salida_centro_handler ADMIN_PWD req w).1
           = VNum (op_cantidad op))
    ∧ (status (salida_particulares_handler ADMIN_PWD req w).1 = 200 →
       ∃ op : Operation,
         currentOperation (sys (salida_particulares_handler ADMIN_PWD req w).2) = Some op
         ∧ op_type op = salida_particulares
         ∧ body_field "cantidad" (salida_particulares_handler ADMIN_PWD req w).1
           = VNum (op_cantidad op)
         ∧ pendingBoxes (sys (salida_particulares_handler ADMIN_PWD req w).2)
           = op_cantidad op).
Proof.
  intros ADMIN_PWD req w.
  unfold salida_particulares_handler, salida_centro_handler.
  destruct (verifyPwd ADMIN_PWD req) as [forbidden|] eqn:Hpwd.
  { unfold verifyPwd in Hpwd. destruct (strict_eq_str _ _); [discriminate|].
    injection Hpwd as <-. repeat split; discriminate. }
  destruct (Db.oneOrNone _) as [e|[rep|]]; [repeat split; discriminate| |repeat split; discriminate].
  destruct (if_truthy (r_location rep)) as [location|]; [|repeat split; discriminate].
  cbn [fst snd]. unfold with_reparto. cbn [sys].
  repeat match goal with
  | |- context [sys (dispatch_directriz ?a ?m ?w0)] =>
      rewrite (proj1 (proj2 (reparto_dispatch_directriz a m w0)))
  end.
  cbn [with_sys sys pendingBoxes currentOperation set_pendingBoxes set_currentOperation].
  split; [done|]. split; intros _; eexists; repeat split.
Qed.

Lemma exit_pending_boxes_witness :
  let w := world_of ledger_gandia true in
  let req := mkRequest (Some 7) (Some "secret") in
  pendingBoxes (sys (salida_centro_handler (Some "secret") req w).2) = 0
  ∧ pendingBoxes (sys (salida_particulares_handler (Some "secret") req w).2) = 6.
Proof.
  intros w req.
  destruct (exit_pending_boxes (Some "secret") req w) as (Hcentro & _ & Hpart).
  destruct (Hpart eq_refl) as (op & Hop & _ & _ & Hpending).
  split; [exact Hcentro|].
  rewrite Hpending. vm_compute in Hop. injection Hop as <-. reflexivity.
Defined.

(** ** Reset of the emergency stop *)

(** C9. An authorized reset-emergency request sets [emergencyStop] to
    [false] and leaves every other field of [systemState] (the conveyor,
    infrared and AGV statuses, [pendingBoxes], [currentOperation]) and the
    rest of the world as they were; no operation is restored. *)
Theorem reset_emergency_frame :
  ∀ (ADMIN_PWD : option string) (req : Request) (w : World),
    body_password req = ADMIN_PWD →
    let res := reset_emergency ADMIN_PWD req w in
    status res.1 = 200
    ∧ emergencyStop (sys res.2) = false
    ∧ conveyor1Status (sys res.2) = conveyor1Status (sys w)
    ∧ conveyor2Status (sys res.2) = conveyor2Status (sys w)
    ∧ infrared1Status (sys res.2) = infrared1Status (sys w)
    ∧ infrared2Status (sys res.2) = infrared2Status (sys w)
    ∧ agvStatus (sys res.2) = agvStatus (sys w)
    ∧ pendingBoxes (sys res.2) = pendingBoxes (sys w)
    ∧ currentOperation (sys res.2) = currentOperation (sys w)
    ∧ reparto res.2 = reparto w
    ∧ mqttConnected res.2 = mqttConnected w
    ∧ trace res.2 = trace w.
Proof.
  intros ADMIN_PWD req w Hpwd res. subst res.
  unfold reset_emergency. rewrite (verifyPwd_pass _ _ Hpwd). done.
Qed.

Lemma reset_emergency_frame_witness :
  let w := mkWorld (set_emergencyStop true systemState) ledger_gandia true [] in
  let res := reset_emergency (Some "secret") (mkRequest None (Some "secret")) w in
  emergencyStop (sys w) = true
  ∧ emergencyStop (sys res.2) = false
  ∧ currentOperation (sys res.2) = None.
Proof.
  intros w res.
  destruct (reset_emergency_frame (Some "secret") (mkRequest None (Some "secret")) w eq_refl)
    as (_ & Hstop & _ & _ & _ & _ & _ & _ & Hop & _).
  exact (conj eq_refl (conj Hstop Hop)).
Defined.

(** ** Site of an emergency stop *)

(** C8, as stated, fails when the active operation carries an empty site
    name: the site is not "Vera", and yet the handler falls back to "Vera"
    and sends the four stop directives. *)
Lemma emergency_stop_at_unnamed_site_transmits :
  let w := world_unnamed_site_active in
  op_almacen <$> currentOperation (sys w) = Some ""
  ∧ transmitted (trace w) = []
  ∧ transmitted (trace (handleEmergencyStop w))
    = [ (accion_conveyor_1, payload_parada);
        (accion_conveyor_2, payload_parada);
        (accion_paletizaje, payload_parada_paletizar);
        (cobot_recogida, payload_parada) ].
Proof. vm_compute. done. Qed.

(** C8, amended. The emergency handler takes the site of the active
    operation when there is one and its site name is not empty, and "Vera"
    otherwise.  For "Vera" it calls [publishMqttMessage] exactly four times,
    in this order: conveyor 1 stop, conveyor 2 stop, palletizing stop with
    mode "paletizar" (an operation carries no mode of its own), cobot pickup
    stop; each call is sent when the client is connected.  For any other
    site it makes no call, transmits nothing and logs one simulation line. *)
Theorem emergency_stop_site_and_directives :
  (∀ (s : SystemState) (op : Operation),
     currentOperation s = Some op → op_almacen op ≠ "" →
     emergency_almacen s = op_almacen op)
  ∧ (∀ s : SystemState,
       currentOperation s = None ∨ op_almacen <$> currentOperation s = Some "" →
       emergency_almacen s = "Vera")
  ∧ (∀ w : World,
       emergency_almacen (sys w) = "Vera" →
       trace (handleEmergencyStop w)
       = trace w ++
         [ PublishCall accion_conveyor_1 payload_parada (mqttConnected w);
           PublishCall accion_conveyor_2 payload_parada (mqttConnected w);
           PublishCall accion_paletizaje payload_parada_paletizar (mqttConnected w);
           PublishCall cobot_recogida payload_parada (mqttConnected w) ]
       ∧ (mqttConnected w = true →
          transmitted (trace (handleEmergencyStop w))
          = transmitted (trace w) ++
            [ (accion_conveyor_1, payload_parada);
              (accion_conveyor_2, payload_parada);
              (accion_paletizaje, payload_parada_paletizar);
              (cobot_recogida, payload_parada) ]))
  ∧ (∀ w : World,
       emergency_almacen (sys w) ≠ "Vera" →
       trace (handleEmergencyStop w) = trace w ++ [SimulationLog (emergency_almacen (sys w))]
       ∧ transmitted (trace (handleEmergencyStop w)) = transmitted (trace w)).
Proof.
  split; [|split; [|split]].
  - intros s op Hop Hne. unfold emergency_almacen. rewrite Hop. simpl.
    by rewrite (proj2 (String.eqb_neq _ _) Hne).
  - intros s [Hnone|Hempty]; unfold emergency_almacen.
    + by rewrite Hnone.
    + by rewrite Hempty.
  - intros w Hsite. rewrite trace_handleEmergencyStop, Hsite.
    unfold stop_directives. rewrite emergency_modo_paletizar.
    split; [done|]. intros Hconn. rewrite transmitted_app, Hconn. done.
  - intros w Hsite. rewrite trace_handleEmergencyStop, (eqb_Vera_false _ Hsite).
    split; [done|]. rewrite transmitted_app. simpl. by rewrite app_nil_r.
Qed.

Lemma emergency_stop_site_and_directives_witness :
  emergency_almacen (sys (world_with_operation (operation_at "Gandia" 2) true)) = "Gandia"
  ∧ emergency_almacen systemState = "Vera"
  ∧ transmitted (trace (handleEmergencyStop (world_of ledger_fresh true)))
    = [ (accion_conveyor_1, payload_parada);
        (accion_conveyor_2, payload_parada);
        (accion_paletizaje, payload_parada_paletizar);
        (cobot_recogida, payload_parada) ]
  ∧ trace (handleEmergencyStop (world_with_operation (operation_at "Gandia" 2) true))
    = [SimulationLog "Gandia"].
Proof.
  destruct emergency_stop_site_and_directives as (Hsite & Hdefault & Hreal & Hsim).
  assert (Hname : "Gandia" ≠ "") by discriminate.
  assert (Hother : emergency_almacen
                     (sys (world_with_operation (operation_at "Gandia" 2) true)) ≠ "Vera")
    by discriminate.
  exact (conj
    (Hsite (sys (world_with_operation (operation_at "Gandia" 2) true))
       (operation_at "Gandia" 2) eq_refl Hname)
    (conj (Hdefault systemState (or_introl eq_refl))
      (conj (proj2 (Hreal (world_of ledger_fresh true) eq_refl) eq_refl)
        (proj1 (Hsim (world_with_operation (operation_at "Gandia" 2) true) Hother))))).
Defined.

(** * Further properties of the module *)

(** ** The gateway *)

Lemma dispatch_directriz_world (almacen message : string) (s : SystemState)
    (t : list Reparto) (c : bool) (tr : list Event) :
  dispatch_directriz almacen message (mkWorld s t c tr)
  = mkWorld s t c
      (tr ++ [if String.eqb almacen "Vera"
              then PublishCall accion_directriz message c
              else SimulationLog almacen]).
Proof.
  unfold dispatch_directriz. rewrite publishMqttMessage_None.
  by destruct (String.eqb almacen "Vera").
Qed.

(** X1. [publishMqttMessage] never touches the state, the ledger or the
    connectivity flag.  With a third argument that names a site other than
    "Vera" (and is not empty) it reports success and transmits nothing, even
    when connected; otherwise it reports the connectivity flag, and
    transmits the message exactly when that flag is set. *)
Theorem publishMqttMessage_outcome :
  ∀ (topic message : string) (almacen : option string) (w : World),
    (sys (publishMqttMessage topic message almacen w).2 = sys w
     ∧ reparto (publishMqttMessage topic message almacen w).2 = reparto w
     ∧ mqttConnected (publishMqttMessage topic message almacen w).2 = mqttConnected w)
    ∧ (∀ a : string, almacen = Some a → a ≠ "" → a ≠ "Vera" →
         (publishMqttMessage topic message almacen w).1 = true
         ∧ transmitted (trace (publishMqttMessage topic message almacen w).2)
           = transmitted (trace w))
    ∧ (almacen = None ∨ almacen = Some "" ∨ almacen = Some "Vera" →
         (publishMqttMessage topic message almacen w).1 = mqttConnected w
         ∧ transmitted (trace (publishMqttMessage topic message almacen w).2)
           = transmitted (trace w)
             ++ (if mqttConnected w then [(topic, message)] else [])).
Proof.
  intros topic message almacen w. split; [|split].
  - unfold publishMqttMessage.
    destruct (truthy_str almacen && _), (mqttConnected w) eqn:Hc; by rewrite ?Hc.
  - intros a -> Hne Hsite. unfold publishMqttMessage. simpl.
    rewrite (proj2 (String.eqb_neq _ _) Hne), (proj2 (String.eqb_neq _ _) Hsite). simpl.
    split; [done|]. rewrite transmitted_app. simpl. by rewrite app_nil_r.
  - intros Hreal.
    assert (Hpath : truthy_str almacen && negb (strict_eq_str almacen (Some "Vera")) = false)
      by (by destruct Hreal as [->|[->| ->]]).
    unfold publishMqttMessage. rewrite Hpath.
    destruct (mqttConnected w); simpl; by rewrite transmitted_app.
Qed.

Lemma publishMqttMessage_outcome_witness :
  (publishMqttMessage accion_directriz "x" (Some "Gandia") (world_of [] true)).1 = true
  ∧ transmitted (trace (publishMqttMessage accion_directriz "x" (Some "Gandia")
                          (world_of [] true)).2) = []
  ∧ (publishMqttMessage accion_directriz "x" (Some "") (world_of [] false)).1 = false
  ∧ transmitted (trace (publishMqttMessage accion_directriz "x" None
                          (world_of [] true)).2) = [(accion_directriz, "x")].
Proof.
  assert (H1 : "Gandia" ≠ "") by discriminate.
  assert (H2 : "Gandia" ≠ "Vera") by discriminate.
  destruct (proj1 (proj2 (publishMqttMessage_outcome accion_directriz "x" (Some "Gandia")
                            (world_of [] true))) "Gandia" eq_refl H1 H2) as [Ha Hb].
  destruct (proj2 (proj2 (publishMqttMessage_outcome accion_directriz "x" (Some "")
                            (world_of [] false))) (or_intror (or_introl eq_refl))) as [Hc _].
  destruct (proj2 (proj2 (publishMqttMessage_outcome accion_directriz "x" None
                            (world_of [] true))) (or_introl eq_refl)) as [_ Hd].
  exact (conj Ha (conj Hb (conj Hc Hd))).
Defined.

(** X2. A failed publish is silent.  Whether the client is connected or not,
    an entrance or an exit gives the same response and leaves the same state
    and the same ledger; while disconnected it transmits nothing. *)
Theorem operations_ignore_connectivity :
  ∀ (ADMIN_PWD : option string) (now : Z) (req : Request) (s : SystemState)
    (t : list Reparto) (tr : list Event),
    let on := mkWorld s t true tr in
    let off := mkWorld s t false tr in
    ((qr_entrada now req on).1 = (qr_entrada now req off).1
     ∧ sys (qr_entrada now req on).2 = sys (qr_entrada now req off).2
     ∧ reparto (qr_entrada now req on).2 = reparto (qr_entrada now req off).2
     ∧ transmitted (trace (qr_entrada now req off).2) = transmitted tr)
    ∧ ((salida_particulares_handler ADMIN_PWD req on).1
       = (salida_particulares_handler ADMIN_PWD req off).1
       ∧ sys (salida_particulares_handler ADMIN_PWD req on).2
         = sys (salida_particulares_handler ADMIN_PWD req off).2
       ∧ reparto (salida_particulares_handler ADMIN_PWD req on).2
         = reparto (salida_particulares_handler ADMIN_PWD req off).2
       ∧ transmitted (trace (salida_particulares_handler ADMIN_PWD req off).2)
         = transmitted tr)
    ∧ ((salida_centro_handler ADMIN_PWD req on).1
       = (salida_centro_handler ADMIN_PWD req off).1
       ∧ sys (salida_centro_handler ADMIN_PWD req on).2
         = sys (salida_centro_handler ADMIN_PWD req off).2
       ∧ reparto (salida_centro_handler ADMIN_PWD req on).2
         = reparto (salida_centro_handler ADMIN_PWD req off).2
       ∧ transmitted (trace (salida_centro_handler ADMIN_PWD req off).2)
         = transmitted tr).
Proof.
  intros ADMIN_PWD now req s t tr on off. subst on off.
  split; [|split].
  - unfold qr_entrada. cbn [reparto].
    destruct (if_truthy (body_id req)) as [id|]; [|done].
    destruct (Db.oneOrNone _) as [e|[product|]]; [done| |done].
    destruct (availablePosition _) as [pos|]; [|done].
    unfold with_sys. cbn [sys reparto mqttConnected trace].
    rewrite !dispatch_directriz_world. unfold with_reparto. cbn [fst snd sys reparto trace].
    repeat split. rewrite transmitted_app.
    destruct (String.eqb _ _); simpl; by rewrite app_nil_r.
  - unfold salida_particulares_handler. cbn [reparto].
    destruct (verifyPwd ADMIN_PWD req); [done|].
    destruct (Db.oneOrNone _) as [e|[rep|]]; [done| |done].
    destruct (if_truthy (r_location rep)) as [location|]; [|done].
    unfold with_sys. cbn [sys reparto mqttConnected trace].
    rewrite !dispatch_directriz_world. unfold with_reparto. cbn [fst snd sys reparto trace].
    repeat split. rewrite transmitted_app.
    destruct (String.eqb _ _); simpl; by rewrite app_nil_r.
  - unfold salida_centro_handler. cbn [reparto].
    destruct (verifyPwd ADMIN_PWD req); [done|].
    destruct (Db.oneOrNone _) as [e|[rep|]]; [done| |done].
    destruct (if_truthy (r_location rep)) as [location|]; [|done].
    unfold with_sys. cbn [sys reparto mqttConnected trace].
    rewrite !dispatch_directriz_world. unfold with_reparto. cbn [fst snd sys reparto trace].
    repeat split. rewrite transmitted_app.
    destruct (String.eqb _ _); simpl; by rewrite app_nil_r.
Qed.

(** ** Requests against the current state *)

(** X3. No request handler reads [systemState]: an entrance or an exit
    gives the same response, the same ledger and the same effects whatever
    the state, so it is served during an emergency stop and over an active
    operation alike.  When it succeeds it replaces [currentOperation] and
    leaves [emergencyStop] as it was. *)
Theorem operations_ignore_system_state :
  ∀ (ADMIN_PWD : option string) (now : Z) (req : Request) (s s' : SystemState)
    (t : list Reparto) (c : bool) (tr : list Event),
    let w := mkWorld s t c tr in
    let w' := mkWorld s' t c tr in
    ((qr_entrada now req w).1 = (qr_entrada now req w').1
     ∧ reparto (qr_entrada now req w).2 = reparto (qr_entrada now req w').2
     ∧ trace (qr_entrada now req w).2 = trace (qr_entrada now req w').2
     ∧ emergencyStop (sys (qr_entrada now req w).2) = emergencyStop s
     ∧ (status (qr_entrada now req w).1 = 200 →
        currentOperation (sys (qr_entrada now req w).2)
        = currentOperation (sys (qr_entrada now req w').2)))
    ∧ ((salida_particulares_handler ADMIN_PWD req w).1
       = (salida_particulares_handler ADMIN_PWD req w').1
       ∧ reparto (salida_particulares_handler ADMIN_PWD req w).2
         = reparto (salida_particulares_handler ADMIN_PWD req w').2
       ∧ trace (salida_particulares_handler ADMIN_PWD req w).2
         = trace (salida_particulares_handler ADMIN_PWD req w').2
       ∧ emergencyStop (sys (salida_particulares_handler ADMIN_PWD req w).2)
         = emergencyStop s
       ∧ (status (salida_particulares_handler ADMIN_PWD req w).1 = 200 →
          currentOperation (sys (salida_particulares_handler ADMIN_PWD req w).2)
          = currentOperation (sys (salida_particulares_handler ADMIN_PWD req w').2)))
    ∧ ((salida_centro_handler ADMIN_PWD req w).1
       = (salida_centro_handler ADMIN_PWD req w').1
       ∧ reparto (salida_centro_handler ADMIN_PWD req w).2
         = reparto (salida_centro_handler ADMIN_PWD req w').2
       ∧ trace (salida_centro_handler ADMIN_PWD req w).2
         = trace (salida_centro_handler ADMIN_PWD req w').2
       ∧ emergencyStop (sys (salida_centro_handler ADMIN_PWD req w).2)
         = emergencyStop s
       ∧ (status (salida_centro_handler ADMIN_PWD req w).1 = 200 →
          currentOperation (sys (salida_centro_handler ADMIN_PWD req w).2)
          = currentOperation (sys (salida_centro_handler ADMIN_PWD req w').2))).
Proof.
  intros ADMIN_PWD now req s s' t c tr w w'. subst w w'.
  split; [|split].
  - unfold qr_entrada. cbn [reparto].
    destruct (if_truthy (body_id req)) as [id|]; [|repeat split; discriminate].
    destruct (Db.oneOrNone _) as [e|[product|]];
      [repeat split; discriminate| |repeat split; discriminate].
    destruct (availablePosition _) as [pos|]; [|repeat split; discriminate].
    unfold with_sys. cbn [sys reparto mqttConnected trace].
    rewrite !dispatch_directriz_world. done.
  - unfold salida_particulares_handler. cbn [reparto].
    destruct (verifyPwd ADMIN_PWD req) as [forbidden|] eqn:Hpwd.
    { unfold verifyPwd in Hpwd. destruct (strict_eq_str _ _); [discriminate|].
      injection Hpwd as <-. repeat split; discriminate. }
    destruct (Db.oneOrNone _) as [e|[rep|]];
      [repeat split; discriminate| |repeat split; discriminate].
    destruct (if_truthy (r_location rep)) as [location|]; [|repeat split; discriminate].
    unfold with_sys. cbn [sys reparto mqttConnected trace].
    rewrite !dispatch_directriz_world. done.
  - unfold salida_centro_handler. cbn [reparto].
    destruct (verifyPwd ADMIN_PWD req) as [forbidden|] eqn:Hpwd.
    { unfold verifyPwd in Hpwd. destruct (strict_eq_str _ _); [discriminate|].
      injection Hpwd as <-. repeat split; discriminate. }
    destruct (Db.oneOrNone _) as [e|[rep|]];
      [repeat split; discriminate| |repeat split; discriminate].
    destruct (if_truthy (r_location rep)) as [location|]; [|repeat split; discriminate].
    unfold with_sys. cbn [sys reparto mqttConnected trace].
    rewrite !dispatch_directriz_world. done.
Qed.

Lemma operations_ignore_system_state_witness :
  let busy := set_emergencyStop true
                (set_currentOperation (Some (operation_at "Vera" 4)) systemState) in
  let res := qr_entrada 1000 (mkRequest (Some 42) None) (mkWorld busy ledger_fresh true []) in
  status res.1 = 200
  ∧ emergencyStop (sys res.2) = true
  ∧ position <$> currentOperation (sys res.2) = Some 1.
Proof.
  intros busy res.
  destruct (proj1 (operations_ignore_system_state None 1000 (mkRequest (Some 42) None)
                     busy systemState ledger_fresh true []))
    as (_ & _ & _ & Hstop & Hop).
  split; [reflexivity|]. split; [exact Hstop|].
  subst res. rewrite (Hop eq_refl). reflexivity.
Defined.

(** ** The ledger under entrances and exits *)

Lemma oneOrNone_Some (rows : list Reparto) (r : Reparto) :
  Db.oneOrNone rows = inr (Some r) → rows = [r].
Proof. destruct rows as [|r' [|r'' rows]]; simpl; congruence. Qed.

Lemma filter_singleton_split {A : Type} (f : A → bool) (t : list A) (x : A) :
  List.filter f t = [x] →
  ∃ t1 t2, t = t1 ++ x :: t2 ∧ f x = true
           ∧ List.filter f t1 = [] ∧ List.filter f t2 = [].
Proof.
  induction t as [|y t IH]; simpl; [discriminate|].
  destruct (f y) eqn:Hy.
  - intros [= -> Ht]. exists [], t. by rewrite Hy.
  - intros Ht. destruct (IH Ht) as (t1 & t2 & -> & Hx & H1 & H2).
    exists (y :: t1), t2. simpl. by rewrite Hy.
Qed.

Lemma filter_nil_Forall {A : Type} (f : A → bool) (t : list A) :
  List.filter f t = [] → Forall (fun y => f y = false) t.
Proof.
  induction t as [|y t IH]; simpl; [constructor|].
  destruct (f y) eqn:Hy; [discriminate|]. intros Ht. constructor; auto.
Qed.

Lemma update_location_unselected (sel : Reparto → bool) (loc now : Z) (t : list Reparto) :
  List.filter sel t = [] → Db.update_location sel loc now t = t.
Proof.
  intros Ht. apply filter_nil_Forall in Ht. unfold Db.update_location.
  induction Ht as [|y t Hy _ IH]; simpl; [done|]. by rewrite Hy, IH.
Qed.

Lemma update_location_split (sel : Reparto → bool) (loc now : Z)
    (t1 t2 : list Reparto) (x : Reparto) :
  sel x = true → List.filter sel t1 = [] → List.filter sel t2 = [] →
  Db.update_location sel loc now (t1 ++ x :: t2) = t1 ++ Db.set_location loc now x :: t2.
Proof.
  intros Hx H1 H2.
  pose proof (update_location_unselected sel loc now t1 H1) as E1.
  pose proof (update_location_unselected sel loc now t2 H2) as E2.
  unfold Db.update_location in *. rewrite map_app. simpl. by rewrite Hx, E1, E2.
Qed.

Lemma filter_unselected {A : Type} (f : A → bool) (t : list A) :
  List.filter f t = [] → List.filter (fun y => negb (f y)) t = t.
Proof.
  intros Ht. apply filter_nil_Forall in Ht.
  induction Ht as [|y t Hy _ IH]; simpl; [done|]. by rewrite Hy, IH.
Qed.

Lemma delete_id_split (id : option Z) (t1 t2 : list Reparto) (x : Reparto) :
  Db.where_id id x = true →
  List.filter (Db.where_id id) t1 = [] → List.filter (Db.where_id id) t2 = [] →
  Db.delete_id id (t1 ++ x :: t2) = t1 ++ t2.
Proof.
  intros Hx H1 H2. unfold Db.delete_id. rewrite List.filter_app. simpl. rewrite Hx. simpl.
  by rewrite (filter_unselected _ _ H1), (filter_unselected _ _ H2).
Qed.

Lemma filter_delete_id (id : option Z) (t : list Reparto) :
  List.filter (Db.where_id id) (Db.delete_id id t) = [].
Proof.
  unfold Db.delete_id. induction t as [|r t IH]; simpl; [done|].
  destruct (Db.where_id id r) eqn:Hr; simpl; [done|]. by rewrite Hr.
Qed.

Lemma located_app (t1 t2 : list Reparto) : located (t1 ++ t2) = located t1 ++ located t2.
Proof. apply omap_app. Qed.

Lemma elem_of_located (a : string) (p : Z) (t : list Reparto) :
  (a, p) ∈ located t ↔ occupied a t p.
Proof.
  unfold located, occupied. rewrite list_elem_of_omap. split.
  - intros (r & Hin & Hr). exists r. destruct (r_location r) as [q|]; simpl in Hr; [|done].
    injection Hr as <- <-. done.
  - intros (r & Hin & <- & Hloc). exists r. by rewrite Hloc.
Qed.


Lemma located_delete_id_subset (id : option Z) (t : list Reparto) (x : string * Z) :
  x ∈ located (Db.delete_id id t) → x ∈ located t.
Proof.
  unfold located, Db.delete_id. rewrite !list_elem_of_omap.
  intros (r & Hin & Hr). exists r. split; [|done].
  apply list_elem_of_In, filter_In in Hin as [Hin _]. by apply list_elem_of_In.
Qed.

Lemma delete_id_slots_ok (id : option Z) (t : list Reparto) :
  slots_ok t → slots_ok (Db.delete_id id t).
Proof.
  intros [Hdup Hin]. split.
  - clear Hin. induction t as [|r t IH]; [done|].
    assert (Htail : NoDup (located t) ∧
                    ∀ q, r_location r = Some q → (r_almacen r, q) ∉ located t).
    { unfold located in *. simpl in Hdup.
      destruct (r_location r) as [q|]; simpl in Hdup.
      - apply NoDup_cons in Hdup as [Hq Hd]. split; [done|]. by intros ? [= <-].
      - split; [done|]. intros ? [=]. }
    destruct Htail as [Hd Hq]. specialize (IH Hd).
    unfold Db.delete_id in *. simpl.
    destruct (Db.where_id id r); simpl; [done|].
    unfold located in *. simpl.
    destruct (r_location r) as [q|]; simpl; [|done].
    apply NoDup_cons. split; [|done].
    intros Hel. apply (Hq q eq_refl). by apply (located_delete_id_subset id t).
  - apply Forall_forall. intros x Hx.
    apply (proj1 (Forall_forall _ _) Hin). by apply (located_delete_id_subset id t).
Qed.

Lemma if_truthy_Some (v : option Z) (n : Z) : if_truthy v = Some n → v = Some n ∧ n ≠ 0.
Proof.
  destruct v as [m|]; simpl; [|discriminate].
  destruct (m =? 0) eqn:Hm; [discriminate|]. intros [= ->].
  split; [done|]. by apply Z.eqb_neq.
Qed.

(** What a successful entrance request has found and done. *)
Lemma qr_entrada_ok (now : Z) (req : Request) (w : World) :
  status (qr_entrada now req w).1 = 200 →
  ∃ (id pos : Z) (product : Reparto),
    body_id req = Some id ∧ id ≠ 0
    ∧ List.filter (Db.where_id (Some id)) (reparto w) = [product]
    ∧ availablePosition (usedLocationSet (r_almacen product) (reparto w)) = Some pos
    ∧ body_field "location" (qr_entrada now req w).1 = VNum pos
    ∧ body_field "cantidad" (qr_entrada now req w).1 = VNum (or_num (r_cantidad product) 12)
    ∧ sys (qr_entrada now req w).2
      = set_pendingBoxes (or_num (r_cantidad product) 12)
          (set_currentOperation
             (Some {| op_type := entrada; position := pos;
                      op_cantidad := or_num (r_cantidad product) 12;
                      productId := VNum id; op_almacen := r_almacen product;
                      phase := picking_from_storage; agvTargetPosition := pos |})
             (sys w))
    ∧ reparto (qr_entrada now req w).2
      = Db.update_location (Db.where_id (Some id)) pos now (reparto w)
    ∧ mqttConnected (qr_entrada now req w).2 = mqttConnected w.
Proof.
  unfold qr_entrada.
  destruct (if_truthy (body_id req)) as [id|] eqn:Hid; [|discriminate].
  destruct (Db.oneOrNone _) as [e|[product|]] eqn:Hrow; [discriminate| |discriminate].
  destruct (availablePosition _) as [pos|] eqn:Hpos; [|discriminate].
  intros _. apply if_truthy_Some in Hid as [Hid Hne]. apply oneOrNone_Some in Hrow.
  exists id, pos, product. destruct w as [s t c tr].
  unfold with_sys. cbn [sys reparto mqttConnected trace] in *.
  rewrite dispatch_directriz_world. done.
Qed.

(** What a successful exit request has found and done, for either kind. *)
Lemma salida_ok_inv (ADMIN_PWD : option string) (req : Request) (w : World) :
  (status (salida_particulares_handler ADMIN_PWD req w).1 = 200
   ∨ status (salida_centro_handler ADMIN_PWD req w).1 = 200) →
  ∃ (location : Z) (rep : Reparto),
    body_password req = ADMIN_PWD
    ∧ List.filter (Db.where_id (body_id req)) (reparto w) = [rep]
    ∧ r_location rep = Some location ∧ location ≠ 0
    ∧ (salida_particulares_handler ADMIN_PWD req w).1
      = salida_ok location (or_num (r_cantidad rep) 10) (r_almacen rep)
    ∧ (salida_centro_handler ADMIN_PWD req w).1
      = salida_ok location (or_num (r_cantidad rep) 10) (r_almacen rep)
    ∧ reparto (salida_particulares_handler ADMIN_PWD req w).2
      = Db.delete_id (body_id req) (reparto w)
    ∧ reparto (salida_centro_handler ADMIN_PWD req w).2
      = Db.delete_id (body_id req) (reparto w).
Proof.
  unfold salida_particulares_handler, salida_centro_handler.
  destruct (verifyPwd ADMIN_PWD req) as [forbidden|] eqn:Hpwd.
  { unfold verifyPwd in Hpwd. destruct (strict_eq_str _ _); [discriminate|].
    injection Hpwd as <-. intros [|]; discriminate. }
  destruct (Db.oneOrNone _) as [e|[rep|]] eqn:Hrow;
    [intros [|]; discriminate| |intros [|]; discriminate].
  destruct (if_truthy (r_location rep)) as [location|] eqn:Hloc;
    [|intros [|]; discriminate].
  intros _. apply if_truthy_Some in Hloc as [Hloc Hne]. apply oneOrNone_Some in Hrow.
  exists location, rep.
  unfold verifyPwd in Hpwd. destruct (strict_eq_str _ _) eqn:Heq; [|discriminate].
  apply strict_eq_str_true in Heq.
  destruct w as [s t c tr]. unfold with_sys. cbn [sys reparto mqttConnected trace] in *.
  rewrite !dispatch_directriz_world. done.
Qed.

(** X4. A successful entrance changes exactly one ledger row, the one with
    the requested id: it gets the assigned position and the receipt
    timestamp [NOW()], its other columns stay, and the other rows and their
    order are those of before. *)
Theorem entrance_updates_one_row :
  ∀ (now : Z) (req : Request) (w : World),
    status (qr_entrada now req w).1 = 200 →
    ∃ (pos : Z) (product : Reparto) (before after : list Reparto),
      Some (r_id product) = body_id req
      ∧ reparto w = before ++ product :: after
      ∧ Forall (fun r => Some (r_id r) ≠ body_id req) (before ++ after)
      ∧ body_field "location" (qr_entrada now req w).1 = VNum pos
      ∧ reparto (qr_entrada now req w).2
        = before
          ++ mkReparto (r_id product) (r_almacen product) (r_lectura product) (Some pos)
               (r_cantidad product) (r_timestamp product) (Some now)
          :: after.
Proof.
  intros now req w Hok.
  destruct (qr_entrada_ok now req w Hok)
    as (id & pos & product & Hid & _ & Hrow & _ & Hloc & _ & _ & Hled & _).
  destruct (filter_singleton_split _ _ _ Hrow) as (t1 & t2 & Ht & Hsel & H1 & H2).
  exists pos, product, t1, t2. rewrite Hid.
  split; [f_equal; by apply Z.eqb_eq|]. split; [done|]. split.
  - apply Forall_app. split; [apply filter_nil_Forall in H1 | apply filter_nil_Forall in H2].
    all: eapply Forall_impl; [eassumption|]; simpl; intros r Hr [= Heq];
      apply Z.eqb_neq in Hr; done.
  - split; [done|]. rewrite Hled, Ht. by apply update_location_split.
Qed.

Lemma entrance_updates_one_row_witness :
  ∃ (pos : Z) (product : Reparto) (before after : list Reparto),
    ledger_two_held = before ++ product :: after
    ∧ reparto (qr_entrada 1000 (mkRequest (Some 42) None) (world_of ledger_two_held true)).2
      = before
        ++ mkReparto (r_id product) (r_almacen product) (r_lectura product) (Some pos)
             (r_cantidad product) (r_timestamp product) (Some 1000)
        :: after.
Proof.
  destruct (entrance_updates_one_row 1000 (mkRequest (Some 42) None)
              (world_of ledger_two_held true) eq_refl)
    as (pos & product & before & after & _ & Hsplit & _ & _ & Hled).
  exists pos, product, before, after. exact (conj Hsplit Hled).
Defined.




(** X6. A successful exit of either kind deletes the one row with the
    requested id and keeps the other rows in order.  On a ledger whose
    located records are distinct and in range, the ledger stays so and the
    position the response reports is free again at the record's site. *)
Theorem exit_releases_slot :
  ∀ (ADMIN_PWD : option string) (req : Request) (w : World),
    slots_ok (reparto w) →
    (status (salida_particulares_handler ADMIN_PWD req w).1 = 200
     ∨ status (salida_centro_handler ADMIN_PWD req w).1 = 200) →
    ∃ (location : Z) (rep : Reparto) (before after : list Reparto),
      reparto w = before ++ rep :: after
      ∧ Some (r_id rep) = body_id req
      ∧ r_location rep = Some location
      ∧ body_field "posicion" (salida_particulares_handler ADMIN_PWD req w).1 = VNum location
      ∧ body_field "posicion" (salida_centro_handler ADMIN_PWD req w).1 = VNum location
      ∧ reparto (salida_particulares_handler ADMIN_PWD req w).2 = before ++ after
      ∧ reparto (salida_centro_handler ADMIN_PWD req w).2 = before ++ after
      ∧ slots_ok (before ++ after)
      ∧ ¬ occupied (r_almacen rep) (before ++ after) location.
Proof.
  intros ADMIN_PWD req w Hinv Hok.
  destruct (salida_ok_inv ADMIN_PWD req w Hok)
    as (location & rep & _ & Hrow & Hloc & _ & Hp & Hc & Hlp & Hlc).
  destruct (filter_singleton_split _ _ _ Hrow) as (t1 & t2 & Ht & Hsel & H1 & H2).
  pose proof (delete_id_split _ _ _ _ Hsel H1 H2) as Hdel. rewrite <- Ht in Hdel.
  exists location, rep, t1, t2. rewrite Hp, Hc, Hlp, Hlc, Hdel.
  split; [done|]. split.
  { destruct (body_id req) as [n|]; [|discriminate]. simpl in Hsel.
    f_equal. by apply Z.eqb_eq. }
  split; [done|]. split; [done|]. split; [done|]. split; [done|]. split; [done|].
  split.
  - rewrite <- Hdel. by apply delete_id_slots_ok.
  - destruct Hinv as [Hdup _]. rewrite Ht, located_app in Hdup. simpl in Hdup.
    rewrite Hloc in Hdup. simpl in Hdup.
    apply NoDup_app in Hdup as (_ & H12 & Hd2). apply NoDup_cons in Hd2 as [Hq _].
    intros Hocc. apply elem_of_located in Hocc. rewrite located_app in Hocc.
    apply elem_of_app in Hocc as [Hocc|Hocc]; [|done].
    apply (H12 _ Hocc). by left.
Qed.

Lemma slots_ok_ledger_gandia : slots_ok ledger_gandia.
Proof.
  split.
  - apply (bool_decide_unpack _). vm_compute. reflexivity.
  - repeat constructor; simpl; lia.
Defined.

Lemma exit_releases_slot_witness :
  ∃ (location : Z) (rep : Reparto) (before after : list Reparto),
    ledger_gandia = before ++ rep :: after
    ∧ reparto (salida_centro_handler (Some "secret") (mkRequest (Some 7) (Some "secret"))
                 (world_of ledger_gandia true)).2 = before ++ after
    ∧ ¬ occupied (r_almacen rep) (before ++ after) location.
Proof.
  destruct (exit_releases_slot (Some "secret") (mkRequest (Some 7) (Some "secret"))
              (world_of ledger_gandia true) slots_ok_ledger_gandia (or_introl eq_refl))
    as (location & rep & before & after & Hsplit & _ & _ & _ & _ & _ & Hled & _ & Hfree).
  exists location, rep, before, after. exact (conj Hsplit (conj Hled Hfree)).
Defined.

(** What an authorized exit does once its record is found and located. *)
Lemma salida_found (ADMIN_PWD : option string) (req : Request) (w : World)
    (rep : Reparto) (location : Z) :
  body_password req = ADMIN_PWD →
  List.filter (Db.where_id (body_id req)) (reparto w) = [rep] →
  r_location rep = Some location → location ≠ 0 →
  (salida_particulares_handler ADMIN_PWD req w).1
    = salida_ok location (or_num (r_cantidad rep) 10) (r_almacen rep)
  ∧ (salida_centro_handler ADMIN_PWD req w).1
    = salida_ok location (or_num (r_cantidad rep) 10) (r_almacen rep)
  ∧ reparto (salida_particulares_handler ADMIN_PWD req w).2
    = Db.delete_id (body_id req) (reparto w)
  ∧ reparto (salida_centro_handler ADMIN_PWD req w).2
    = Db.delete_id (body_id req) (reparto w).
Proof.
  intros Hpwd Hrow Hloc Hne.
  unfold salida_particulares_handler, salida_centro_handler.
  rewrite (verifyPwd_pass _ _ Hpwd), Hrow. cbn [Db.oneOrNone]. rewrite Hloc.
  cbn [if_truthy]. rewrite (proj2 (Z.eqb_neq _ _) Hne).
  destruct w as [s t c tr]. unfold with_sys. cbn [sys reparto mqttConnected trace].
  rewrite !dispatch_directriz_world. done.
Qed.

Lemma salida_not_found (ADMIN_PWD : option string) (req : Request) (w : World) :
  body_password req = ADMIN_PWD →
  List.filter (Db.where_id (body_id req)) (reparto w) = [] →
  salida_particulares_handler ADMIN_PWD req w
    = (json_error 404 "Reparto record not found", w)
  ∧ salida_centro_handler ADMIN_PWD req w
    = (json_error 404 "Reparto record not found", w).
Proof.
  intros Hpwd Hrow. unfold salida_particulares_handler, salida_centro_handler.
  by rewrite (verifyPwd_pass _ _ Hpwd), Hrow.
Qed.

Lemma delete_id_update_location (id : option Z) (loc now : Z) (t : list Reparto) :
  Db.delete_id id (Db.update_location (Db.where_id id) loc now t) = Db.delete_id id t.
Proof.
  unfold Db.delete_id, Db.update_location.
  induction t as [|r t IH]; [done|]. simpl.
  destruct (Db.where_id id r) eqn:Hr; simpl.
  - replace (Db.where_id id (Db.set_location loc now r)) with true by (by destruct id).
    simpl. exact IH.
  - rewrite Hr. simpl. by rewrite IH.
Qed.

(** X7. An exit cannot be repeated: after a successful exit of either kind,
    the same request to either exit endpoint answers 404 and changes
    nothing. *)
Theorem exit_twice_not_found :
  ∀ (ADMIN_PWD : option string) (req : Request) (w : World),
    (status (salida_particulares_handler ADMIN_PWD req w).1 = 200 →
     let w' := (salida_particulares_handler ADMIN_PWD req w).2 in
     salida_particulares_handler ADMIN_PWD req w'
       = (json_error 404 "Reparto record not found", w')
     ∧ salida_centro_handler ADMIN_PWD req w'
       = (json_error 404 "Reparto record not found", w'))
    ∧ (status (salida_centro_handler ADMIN_PWD req w).1 = 200 →
       let w' := (salida_centro_handler ADMIN_PWD req w).2 in
       salida_particulares_handler ADMIN_PWD req w'
         = (json_error 404 "Reparto record not found", w')
       ∧ salida_centro_handler ADMIN_PWD req w'
         = (json_error 404 "Reparto record not found", w')).
Proof.
  intros ADMIN_PWD req w. split; intros Hok w'.
  - destruct (salida_ok_inv ADMIN_PWD req w (or_introl Hok))
      as (_ & _ & Hpwd & _ & _ & _ & _ & _ & Hled & _).
    apply (salida_not_found _ _ _ Hpwd). subst w'. rewrite Hled. apply filter_delete_id.
  - destruct (salida_ok_inv ADMIN_PWD req w (or_intror Hok))
      as (_ & _ & Hpwd & _ & _ & _ & _ & _ & _ & Hled).
    apply (salida_not_found _ _ _ Hpwd). subst w'. rewrite Hled. apply filter_delete_id.
Qed.

Lemma exit_twice_not_found_witness :
  let req := mkRequest (Some 7) (Some "secret") in
  let w' := (salida_particulares_handler (Some "secret") req (world_of ledger_gandia true)).2 in
  status (salida_particulares_handler (Some "secret") req w').1 = 404
  ∧ status (salida_centro_handler (Some "secret") req
              (salida_centro_handler (Some "secret") req (world_of ledger_gandia true)).2).1
    = 404.
Proof.
  intros req w'.
  destruct (exit_twice_not_found (Some "secret") req (world_of ledger_gandia true))
    as [Hpart Hcentro].
  destruct (Hpart eq_refl) as [H1 _]. destruct (Hcentro eq_refl) as [_ H2].
  subst w'. rewrite H1, H2. split; reflexivity.
Defined.

(** X8. Entrance then exit is a round trip on the ledger.  After a
    successful entrance of a product, an authorized exit of the same id
    succeeds, reports the position the entrance assigned, and leaves the
    ledger as it was before the entrance, without the product's row.  The
    reported quantities are the stored [cantidad] when it is set and not 0;
    otherwise the entrance reports 12 and the exit 10. *)
Theorem entrance_then_exit :
  ∀ (ADMIN_PWD : option string) (now : Z) (req req' : Request) (w : World),
    status (qr_entrada now req w).1 = 200 →
    body_id req' = body_id req →
    body_password req' = ADMIN_PWD →
    let w1 := (qr_entrada now req w).2 in
    ∃ product : Reparto,
      product ∈ reparto w
      ∧ status (salida_particulares_handler ADMIN_PWD req' w1).1 = 200
      ∧ status (salida_centro_handler ADMIN_PWD req' w1).1 = 200
      ∧ body_field "posicion" (salida_particulares_handler ADMIN_PWD req' w1).1
        = body_field "location" (qr_entrada now req w).1
      ∧ body_field "posicion" (salida_centro_handler ADMIN_PWD req' w1).1
        = body_field "location" (qr_entrada now req w).1
      ∧ reparto (salida_particulares_handler ADMIN_PWD req' w1).2
        = Db.delete_id (body_id req) (reparto w)
      ∧ reparto (salida_centro_handler ADMIN_PWD req' w1).2
        = Db.delete_id (body_id req) (reparto w)
      ∧ body_field "cantidad" (qr_entrada now req w).1
        = VNum (or_num (r_cantidad product) 12)
      ∧ body_field "cantidad" (salida_particulares_handler ADMIN_PWD req' w1).1
        = VNum (or_num (r_cantidad product) 10)
      ∧ body_field "cantidad" (salida_centro_handler ADMIN_PWD req' w1).1
        = VNum (or_num (r_cantidad product) 10).
Proof.
  intros ADMIN_PWD now req req' w Hok Hid' Hpwd w1.
  destruct (qr_entrada_ok now req w Hok)
    as (id & pos & product & Hid & _ & Hrow & Hpos & Hloc & Hqty & _ & Hled & _).
  apply availablePosition_Some in Hpos as (Hrange & _ & _).
  assert (Hrow1 : List.filter (Db.where_id (body_id req')) (reparto w1)
                  = [Db.set_location pos now product]).
  { subst w1. rewrite Hid', Hid, Hled, filter_update_location, Hrow. done. }
  assert (Hne : pos ≠ 0) by lia.
  destruct (salida_found ADMIN_PWD req' w1 _ pos Hpwd Hrow1 eq_refl Hne)
    as (Hp & Hc & Hlp & Hlc).
  exists product. rewrite Hp, Hc, Hlp, Hlc, Hloc, Hqty.
  split.
  { apply list_elem_of_In. eapply proj1, filter_In. rewrite Hrow. by left. }
  subst w1. rewrite Hid', Hid, Hled, delete_id_update_location. done.
Qed.

Lemma entrance_then_exit_witness :
  let w := world_of [row 9 "Gandia" "aceite" None None] true in
  let entered := qr_entrada 1000 (mkRequest (Some 9) None) w in
  let left := salida_centro_handler (Some "secret")
                (mkRequest (Some 9) (Some "secret")) entered.2 in
  status left.1 = 200
  ∧ body_field "posicion" left.1 = body_field "location" entered.1
  ∧ reparto left.2 = []
  ∧ body_field "cantidad" entered.1 = VNum 12
  ∧ body_field "cantidad" left.1 = VNum 10.
Proof.
  intros w entered left.
  destruct (entrance_then_exit (Some "secret") 1000 (mkRequest (Some 9) None)
              (mkRequest (Some 9) (Some "secret")) w eq_refl eq_refl eq_refl)
    as (product & _ & _ & Hst & _ & Hpos & _ & Hled & _).
  split; [exact Hst|]. split; [exact Hpos|]. split; [exact Hled|].
  split; reflexivity.
Defined.

(** ** Requests that fail *)



(** X10. The password check passes exactly when the [password] field is
    identical to [process.env.ADMIN_PWD]: a reset is served if and only if
    the two are equal.  In particular, when [ADMIN_PWD] is not set, a request
    that carries no password is authorized. *)
Theorem reset_served_iff_password_matches :
  (∀ (ADMIN_PWD : option string) (req : Request) (w : World),
     status (reset_emergency ADMIN_PWD req w).1 = 200 ↔ body_password req = ADMIN_PWD)
  ∧ (∀ (req : Request) (w : World),
       body_password req = None →
       status (reset_emergency None req w).1 = 200
       ∧ emergencyStop (sys (reset_emergency None req w).2) = false).
Proof.
  split.
  - intros ADMIN_PWD req w. unfold reset_emergency, verifyPwd.
    destruct (strict_eq_str _ _) eqn:Heq.
    + apply strict_eq_str_true in Heq. done.
    + split; [discriminate|]. intros Hpwd. apply strict_eq_str_true in Hpwd. congruence.
  - intros req w Hpwd. unfold reset_emergency, verifyPwd. by rewrite Hpwd.
Qed.

Lemma reset_served_iff_password_matches_witness :
  status (reset_emergency None (mkRequest None None) (world_of [] true)).1 = 200
  ∧ status (reset_emergency (Some "secret") (mkRequest None (Some "secret"))
              (world_of [] true)).1 = 200.
Proof.
  split.
  - exact (proj1 (proj2 reset_served_iff_password_matches (mkRequest None None)
                    (world_of [] true) eq_refl)).
  - exact (proj2 (proj1 reset_served_iff_password_matches (Some "secret")
                    (mkRequest None (Some "secret")) (world_of [] true)) eq_refl).
Defined.

(** ** Device messages *)

Lemma reparto_handleEmergencyStop (w : World) :
  reparto (handleEmergencyStop w) = reparto w
  ∧ mqttConnected (handleEmergencyStop w) = mqttConnected w.
Proof.
  unfold handleEmergencyStop. rewrite !publishMqttMessage_None.
  by destruct (String.eqb _ _).
Qed.

(** What [handleQrCodeEntry] leaves alone: the emergency flag and the
    connectivity flag. *)
Lemma handleQrCodeEntry_frame (parse : string → option QrData) (now : Z)
    (qrData : QrData) (w : World) :
  emergencyStop (sys (handleQrCodeEntry parse now qrData w)) = emergencyStop (sys w)
  ∧ mqttConnected (handleQrCodeEntry parse now qrData w) = mqttConnected w.
Proof.
  unfold handleQrCodeEntry.
  destruct (qr_parsedData parse qrData) as [pd|]; [|done].
  destruct (negb _ && negb _); [done|].
  destruct (Db.oneOrNone _) as [e|[product|]]; [done| |done].
  destruct (availablePosition _) as [pos|]; [|done].
  destruct w as [s t c tr]. unfold with_sys. cbn [sys reparto mqttConnected trace].
  by rewrite dispatch_directriz_world.
Qed.

(** X11. An emergency stop does not give the slot back.  After a successful
    entrance, an emergency message clears the operation and the pending
    boxes but leaves the ledger as the entrance wrote it: the product's site
    still holds the assigned position. *)
Theorem emergency_stop_keeps_the_slot :
  ∀ (parseInt : string → JsNum) (JSON_parse : string → option JsVal)
    (JSON_parse_qr : string → option QrData) (now now' : Z) (payload : string)
    (req : Request) (w : World),
    status (qr_entrada now req w).1 = 200 →
    let w1 := (qr_entrada now req w).2 in
    let w2 := (on_message parseInt JSON_parse JSON_parse_qr now' topic_emergencia payload w1).2 in
    currentOperation (sys w2) = None
    ∧ pendingBoxes (sys w2) = 0
    ∧ reparto w2 = reparto w1
    ∧ ∃ (pos : Z) (product : Reparto),
        product ∈ reparto w
        ∧ body_field "location" (qr_entrada now req w).1 = VNum pos
        ∧ occupied (r_almacen product) (reparto w2) pos.
Proof.
  intros parseInt JSON_parse JSON_parse_qr now now' payload req w Hok w1 w2.
  assert (Hw2 : w2 = handleEmergencyStop (with_sys (set_emergencyStop true) w1)) by done.
  rewrite Hw2, sys_handleEmergencyStop, (proj1 (reparto_handleEmergencyStop _)).
  cbn [with_sys reparto sys set_pendingBoxes set_currentOperation pendingBoxes currentOperation].
  split; [done|]. split; [done|]. split; [done|].
  destruct (qr_entrada_ok now req w Hok)
    as (id & pos & product & _ & _ & Hrow & _ & Hloc & _ & _ & Hled & _).
  exists pos, product. split.
  { apply list_elem_of_In. eapply proj1, filter_In. rewrite Hrow. by left. }
  split; [done|]. subst w1. rewrite Hled.
  apply update_location_occupied. rewrite Hrow. by left.
Qed.

Lemma emergency_stop_keeps_the_slot_witness :
  let w1 := (qr_entrada 1000 (mkRequest (Some 42) None) (world_of ledger_fresh true)).2 in
  let w2 := (on_message sample_parseInt sample_JSON_parse sample_JSON_parse_qr 1001
               topic_emergencia "stop" w1).2 in
  currentOperation (sys w2) = None
  ∧ ∃ (pos : Z) (product : Reparto), occupied (r_almacen product) (reparto w2) pos.
Proof.
  intros w1 w2.
  destruct (emergency_stop_keeps_the_slot sample_parseInt sample_JSON_parse
              sample_JSON_parse_qr 1000 1001 "stop" (mkRequest (Some 42) None)
              (world_of ledger_fresh true) eq_refl)
    as (Hop & _ & _ & pos & product & _ & _ & Hocc).
  split; [exact Hop|]. exists pos, product. exact Hocc.
Defined.

Ltac known_topic :=
  let H := fresh in
  intros H; destruct H; subst; apply list_elem_of_In; simpl; tauto.

(** X12. What a device message can touch.  Only a QR notification changes
    the ledger; only an emergency message changes [emergencyStop]; a message
    on any other topic transmits nothing and leaves [currentOperation] and
    [pendingBoxes] alone, so an AGV report, at the target position or not,
    never completes the active operation.  No message changes the
    connectivity flag, and a message on a topic outside the seven handled
    ones changes nothing. *)
Theorem device_message_frame :
  ∀ (parseInt : string → JsNum) (JSON_parse : string → option JsVal)
    (JSON_parse_qr : string → option QrData) (now : Z) (topic payload : string) (w : World),
    let r := on_message parseInt JSON_parse JSON_parse_qr now topic payload w in
    mqttConnected r.2 = mqttConnected w
    ∧ (topic ≠ topic_QR → reparto r.2 = reparto w)
    ∧ (topic ≠ topic_emergencia → emergencyStop (sys r.2) = emergencyStop (sys w))
    ∧ (topic ≠ topic_emergencia → topic ≠ topic_QR →
       transmitted (trace r.2) = transmitted (trace w)
       ∧ currentOperation (sys r.2) = currentOperation (sys w)
       ∧ pendingBoxes (sys r.2) = pendingBoxes (sys w))
    ∧ (topic ∉ [topic_emergencia; topic_conveyor_1; topic_conveyor_2;
                topic_infrarrojos_1; topic_infrarrojos_2; topic_agv; topic_QR] →
       r = (Normal, w)).
Proof.
  intros parseInt JSON_parse JSON_parse_qr now topic payload w r. subst r.
  assert (Hagv : mqttConnected (on_agv_status JSON_parse payload w) = mqttConnected w
                 ∧ reparto (on_agv_status JSON_parse payload w) = reparto w
                 ∧ emergencyStop (sys (on_agv_status JSON_parse payload w))
                   = emergencyStop (sys w)
                 ∧ transmitted (trace (on_agv_status JSON_parse payload w))
                   = transmitted (trace w)
                 ∧ currentOperation (sys (on_agv_status JSON_parse payload w))
                   = currentOperation (sys w)
                 ∧ pendingBoxes (sys (on_agv_status JSON_parse payload w))
                   = pendingBoxes (sys w)).
  { unfold on_agv_status.
    assert (Hemit : ∀ e v, transmitted (trace (emit (ErrorLog e) v)) = transmitted (trace v)).
    { intros e v. cbn [emit trace]. rewrite transmitted_app. simpl. by rewrite app_nil_r. }
    destruct (JSON_parse payload) as [agv|]; [|by rewrite Hemit].
    destruct (get_prop agv "ubicacion") as [u|], (get_prop agv "estado") as [e|];
      try by rewrite Hemit.
    cbn [with_sys sys currentOperation set_agvStatus].
    destruct (currentOperation (sys w)) as [op|] eqn:Hop;
      [|cbn [with_sys sys reparto mqttConnected trace set_agvStatus emergencyStop
             currentOperation pendingBoxes]; by rewrite Hop].
    destruct (strict_eq_num _ _);
      [|cbn [with_sys sys reparto mqttConnected trace set_agvStatus emergencyStop
             currentOperation pendingBoxes]; by rewrite Hop].
    replace (call_undeclared "handleAgvReachedPosition")
      with (Throw (ReferenceError "handleAgvReachedPosition")) by done.
    rewrite Hemit.
    cbn [emit with_sys sys reparto mqttConnected trace set_agvStatus emergencyStop
         currentOperation pendingBoxes]. by rewrite Hop. }
  unfold on_message.
  destruct (String.eqb topic topic_emergencia) eqn:E1.
  { apply String.eqb_eq in E1. cbn [fst snd].
    destruct (reparto_handleEmergencyStop (with_sys (set_emergencyStop true) w)) as [Hr Hc].
    rewrite Hr, Hc. split; [done|]. split; [done|]. split; [done|]. split; [done|].
    known_topic. }
  destruct (String.eqb topic topic_conveyor_1) eqn:E2.
  { apply String.eqb_eq in E2. repeat split. known_topic. }
  destruct (String.eqb topic topic_conveyor_2) eqn:E3.
  { apply String.eqb_eq in E3. repeat split. known_topic. }
  destruct (String.eqb topic topic_infrarrojos_1) eqn:E4.
  { apply String.eqb_eq in E4. repeat split. known_topic. }
  destruct (String.eqb topic topic_infrarrojos_2) eqn:E5.
  { apply String.eqb_eq in E5. repeat split. known_topic. }
  destruct (String.eqb topic topic_agv) eqn:E6.
  { apply String.eqb_eq in E6. cbn [fst snd].
    destruct Hagv as (H1 & H2 & H3 & H4 & H5 & H6).
    split; [done|]. split; [done|]. split; [done|]. split; [done|].
    known_topic. }
  destruct (String.eqb topic topic_QR) eqn:E7.
  { apply String.eqb_eq in E7.
    destruct (JSON_parse_qr payload) as [qrData|]; cbn [fst snd].
    - destruct (handleQrCodeEntry_frame JSON_parse_qr now qrData w) as [Hs Hc].
      split; [done|]. split; [done|]. split; [done|]. split; [done|].
      known_topic.
    - split; [done|]. split; [done|]. split; [done|]. split; [done|].
      known_topic. }
  repeat split.
Qed.

Lemma device_message_frame_witness :
  let w := world_with_operation (operation_at "Vera" 3) true in
  let r := on_message sample_parseInt sample_JSON_parse sample_JSON_parse_qr 1000
             topic_agv "agv-at-3" w in
  position <$> currentOperation (sys r.2) = Some 3
  ∧ transmitted (trace r.2) = []
  ∧ on_message sample_parseInt sample_JSON_parse sample_JSON_parse_qr 1000
      "PR2A1/status/cobot" "x" w = (Normal, w).
Proof.
  intros w r.
  assert (H1 : topic_agv ≠ topic_emergencia) by discriminate.
  assert (H2 : topic_agv ≠ topic_QR) by discriminate.
  destruct (device_message_frame sample_parseInt sample_JSON_parse sample_JSON_parse_qr
              1000 topic_agv "agv-at-3" w) as (_ & _ & _ & Hkeep & _).
  destruct (Hkeep H1 H2) as (Hsent & Hop & _).
  destruct (device_message_frame sample_parseInt sample_JSON_parse sample_JSON_parse_qr
              1000 "PR2A1/status/cobot" "x" w) as (_ & _ & _ & _ & Hother).
  split; [subst r; by rewrite Hop|]. split; [exact Hsent|].
  apply Hother. intros Hin. apply list_elem_of_In in Hin. simpl in Hin.
  repeat (destruct Hin as [Hin|Hin]; [discriminate Hin|]). exact Hin.
Defined.

(** ** The two entrance paths *)

(** The message path and the request path of an entrance, side by side. *)
Lemma handleQrCodeEntry_as_qr_entrada :
  ∀ (parse : string → option QrData) (now id : Z) (cantidad : option Z)
    (lectura password : option string) (w : World),
    id ≠ 0 →
    (length (List.filter (Db.where_id (Some id)) (reparto w)) ≤ 1)%nat →
    (∀ product, product ∈ reparto w → r_id product = id →
                or_num cantidad 12 = or_num (r_cantidad product) 12) →
    handleQrCodeEntry parse now (mkQrData None (Some id) cantidad lectura) w
    = (qr_entrada now (mkRequest (Some id) password) w).2.
Proof.
  intros parse now id cantidad lectura password w Hne Hkey Hqty.
  unfold handleQrCodeEntry, qr_entrada, qr_parsedData, qr_selector.
  cbn [qr_wrapper truthy_str qr_id qr_lectura qr_cantidad body_id truthy_num if_truthy].
  rewrite (proj2 (Z.eqb_neq _ _) Hne). cbn [negb andb].
  destruct (List.filter (Db.where_id (Some id)) (reparto w)) as [|product [|other rest]] eqn:Hrow.
  - done.
  - cbn [Db.oneOrNone].
    assert (Hin : In product (List.filter (Db.where_id (Some id)) (reparto w)))
      by (rewrite Hrow; by left).
    apply filter_In in Hin as [Hin Hsel]. simpl in Hsel. apply Z.eqb_eq in Hsel.
    rewrite (Hqty product (proj2 (list_elem_of_In _ _) Hin) Hsel).
    by destruct (availablePosition _).
  - simpl in Hkey. lia.
Qed.

(** X13. The two entrance paths agree.  For a QR payload without wrapper
    that carries the id of at most one ledger row, and a quantity that
    resolves like the one stored in that row, [handleQrCodeEntry] leaves
    exactly the world that [/api/qr-entrada] leaves for the same id. *)
Theorem qr_paths_agree :
  ∀ (parse : string → option QrData) (now id : Z) (cantidad : option Z)
    (lectura password : option string) (w : World),
    id ≠ 0 →
    (length (List.filter (Db.where_id (Some id)) (reparto w)) ≤ 1)%nat →
    (∀ product, product ∈ reparto w → r_id product = id →
                or_num cantidad 12 = or_num (r_cantidad product) 12) →
    handleQrCodeEntry parse now (mkQrData None (Some id) cantidad lectura) w
    = (qr_entrada now (mkRequest (Some id) password) w).2.
Proof.
  intros parse now id cantidad lectura password w Hne Hkey Hqty.
  by apply handleQrCodeEntry_as_qr_entrada.
Qed.

Lemma qr_paths_agree_witness :
  handleQrCodeEntry sample_JSON_parse_qr 1000 (generateQRCode 42 "leche" 12)
    (world_of ledger_two_held true)
  = (qr_entrada 1000 (mkRequest (Some 42) None) (world_of ledger_two_held true)).2.
Proof.
  assert (Hne : 42 ≠ 0) by discriminate.
  apply (qr_paths_agree sample_JSON_parse_qr 1000 42 (Some 12) (Some "leche") None
           (world_of ledger_two_held true) Hne).
  - simpl. lia.
  - intros product Hin Hid. apply list_elem_of_In in Hin.
    destruct Hin as [<-|[<-|[<-|[<-|[]]]]]; try discriminate Hid; reflexivity.
Defined.

(** X14. The ["QR Code"] wrapper decides what is read.  With a non-empty
    wrapper the handler works on the parse of its text and ignores every
    field beside it, and if that text does not parse it only logs the error;
    with no wrapper, or an empty one, it works on the notification itself. *)
Theorem qr_wrapper_unwrapped :
  ∀ (parse : string → option QrData) (now : Z) (qrData : QrData) (w : World),
    (∀ text : string,
       qr_wrapper qrData = Some text → text ≠ "" →
       handleQrCodeEntry parse now qrData w
       = match parse text with
         | Some inner =>
             handleQrCodeEntry parse now
               (mkQrData None (qr_id inner) (qr_cantidad inner) (qr_lectura inner)) w
         | None => emit (ErrorLog SyntaxError) w
         end)
    ∧ (qr_wrapper qrData = None ∨ qr_wrapper qrData = Some "" →
       handleQrCodeEntry parse now qrData w
       = handleQrCodeEntry parse now
           (mkQrData None (qr_id qrData) (qr_cantidad qrData) (qr_lectura qrData)) w).
Proof.
  intros parse now qrData w. split.
  - intros text Hwrap Hne. unfold handleQrCodeEntry at 1. unfold qr_parsedData.
    rewrite Hwrap. cbn [truthy_str or_str]. rewrite (proj2 (String.eqb_neq _ _) Hne).
    cbn [negb]. by destruct (parse text).
  - intros Hwrap. unfold handleQrCodeEntry, qr_parsedData.
    by destruct Hwrap as [-> | ->].
Qed.

Lemma qr_wrapper_unwrapped_witness :
  handleQrCodeEntry sample_JSON_parse_qr 1000
    (mkQrData (Some "qr-42") (Some 7) None None) (world_of ledger_two_held true)
  = handleQrCodeEntry sample_JSON_parse_qr 1000
      (mkQrData None (Some 42) (Some 12) (Some "leche")) (world_of ledger_two_held true)
  ∧ handleQrCodeEntry sample_JSON_parse_qr 1000
      (mkQrData (Some "") (Some 42) None None) (world_of ledger_two_held true)
    = handleQrCodeEntry sample_JSON_parse_qr 1000
        (mkQrData None (Some 42) None None) (world_of ledger_two_held true).
Proof.
  assert (Hne : "qr-42" ≠ "") by discriminate.
  split.
  - exact (proj1 (qr_wrapper_unwrapped sample_JSON_parse_qr 1000
                    (mkQrData (Some "qr-42") (Some 7) None None)
                    (world_of ledger_two_held true)) "qr-42" eq_refl Hne).
  - exact (proj2 (qr_wrapper_unwrapped sample_JSON_parse_qr 1000
                    (mkQrData (Some "") (Some 42) None None)
                    (world_of ledger_two_held true)) (or_intror eq_refl)).
Defined.

(** X15. State and ledger agree after an entrance.  When [/api/qr-entrada]
    succeeds, the stored operation is an [entrada] whose [agvTargetPosition]
    is its [position], [pendingBoxes] is its quantity, the response reports
    that position and quantity, the position lies in 1..5 and the ledger
    holds it for the operation's site.  [handleQrCodeEntry] either does the
    same or changes neither state nor ledger and transmits nothing. *)
Theorem entrance_operation_matches_ledger :
  (∀ (now : Z) (req : Request) (w : World),
     status (qr_entrada now req w).1 = 200 →
     ∃ op : Operation,
       currentOperation (sys (qr_entrada now req w).2) = Some op
       ∧ op_type op = entrada
       ∧ agvTargetPosition op = position op
       ∧ pendingBoxes (sys (qr_entrada now req w).2) = op_cantidad op
       ∧ body_field "location" (qr_entrada now req w).1 = VNum (position op)
       ∧ body_field "cantidad" (qr_entrada now req w).1 = VNum (op_cantidad op)
       ∧ 1 ≤ position op ≤ 5
       ∧ occupied (op_almacen op) (reparto (qr_entrada now req w).2) (position op))
  ∧ (∀ (parse : string → option QrData) (now : Z) (qrData : QrData) (w : World),
       (sys (handleQrCodeEntry parse now qrData w) = sys w
        ∧ reparto (handleQrCodeEntry parse now qrData w) = reparto w
        ∧ transmitted (trace (handleQrCodeEntry parse now qrData w)) = transmitted (trace w))
       ∨ ∃ op : Operation,
           currentOperation (sys (handleQrCodeEntry parse now qrData w)) = Some op
           ∧ op_type op = entrada
           ∧ agvTargetPosition op = position op
           ∧ pendingBoxes (sys (handleQrCodeEntry parse now qrData w)) = op_cantidad op
           ∧ 1 ≤ position op ≤ 5
           ∧ occupied (op_almacen op) (reparto (handleQrCodeEntry parse now qrData w))
               (position op)).
Proof.
  split.
  - intros now req w Hok.
    destruct (qr_entrada_ok now req w Hok)
      as (id & pos & product & _ & _ & Hrow & Hpos & Hloc & Hqty & Hsys & Hled & _).
    apply availablePosition_Some in Hpos as (Hrange & _ & _).
    eexists. rewrite Hsys, Hloc, Hqty, Hled.
    cbn [currentOperation set_pendingBoxes set_currentOperation pendingBoxes].
    split; [reflexivity|]. cbn [op_type agvTargetPosition position op_cantidad op_almacen].
    repeat split; try lia.
    apply update_location_occupied. rewrite Hrow. by left.
  - intros parse now qrData w. unfold handleQrCodeEntry.
    assert (Hemit : ∀ e, transmitted (trace (emit (ErrorLog e) w)) = transmitted (trace w)).
    { intros e. cbn [emit trace]. rewrite transmitted_app. simpl. by rewrite app_nil_r. }
    destruct (qr_parsedData parse qrData) as [pd|]; [|left; by rewrite Hemit].
    destruct (negb _ && negb _); [by left|].
    destruct (Db.oneOrNone _) as [e|[product|]] eqn:Hrow;
      [left; by rewrite Hemit| |by left].
    destruct (availablePosition _) as [pos|] eqn:Hpos; [|by left].
    apply oneOrNone_Some in Hrow. apply availablePosition_Some in Hpos as (Hrange & _ & _).
    right. destruct w as [s t c tr]. unfold with_sys.
    cbn [sys reparto mqttConnected trace] in *. rewrite dispatch_directriz_world.
    cbn [with_reparto sys reparto currentOperation set_pendingBoxes set_currentOperation
         pendingBoxes].
    eexists. split; [reflexivity|].
    cbn [op_type agvTargetPosition position op_cantidad op_almacen].
    repeat split; try lia.
    destruct (filter_singleton_split _ _ _ Hrow) as (t1 & t2 & -> & Hsel & H1 & H2).
    rewrite (update_location_split _ _ _ _ _ _ Hsel H1 H2).
    exists (Db.set_location pos now product). split; [|done].
    apply elem_of_app. right. by left.
Qed.

Lemma entrance_operation_matches_ledger_witness :
  ∃ op : Operation,
    currentOperation
      (sys (qr_entrada 1000 (mkRequest (Some 42) None) (world_of ledger_two_held true)).2)
    = Some op
    ∧ occupied (op_almacen op)
        (reparto (qr_entrada 1000 (mkRequest (Some 42) None)
                    (world_of ledger_two_held true)).2) (position op).
Proof.
  destruct (proj1 entrance_operation_matches_ledger 1000 (mkRequest (Some 42) None)
              (world_of ledger_two_held true) eq_refl)
    as (op & Hop & _ & _ & _ & _ & _ & _ & Hocc).
  exists op. exact (conj Hop Hocc).
Defined.

(** ** Registration of a delivery *)

Lemma select_used_locations_unlocated (a : string) (t : list Reparto) (r : Reparto) :
  r_location r = None →
  Db.select_used_locations a (t ++ [r]) = Db.select_used_locations a t.
Proof.
  intros Hloc. unfold Db.select_used_locations.
  rewrite List.filter_app, omap_app. simpl.
  destruct (String.eqb (r_almacen r) a); simpl; rewrite ?Hloc; by rewrite app_nil_r.
Qed.


Lemma where_inserted_new (almacen lectura : string) (ct id : Z)
    (location cantidad recepcion : option Z) :
  where_inserted almacen lectura ct
    (mkReparto id almacen lectura location cantidad ct recepcion) = true.
Proof.
  unfold where_inserted. simpl. by rewrite !String.eqb_refl, Z.eqb_refl.
Qed.



Lemma enviar_world (ADMIN_PWD : option string) (redirectURL : string)
    (currentTime new_id : Z) (req : EnviarRequest) (w : World) :
  ev_password req = ADMIN_PWD →
  (enviar ADMIN_PWD redirectURL currentTime new_id req w).1.2
  = with_reparto
      (fun t => t ++ [mkReparto new_id (ev_almacen req) (ev_lectura req) None
                        (Some (or_num (ev_cantidad req) 12)) currentTime None]) w
  ∧ ∀ qr : QrData,
      (enviar ADMIN_PWD redirectURL currentTime new_id req w).2 = Some qr →
      qr = generateQRCode new_id (ev_lectura req) (or_num (ev_cantidad req) 12).
Proof.
  intros Hpwd. unfold enviar.
  rewrite (verifyPwd_pass ADMIN_PWD (mkRequest None (ev_password req)) Hpwd).
  cbn [with_reparto reparto]. rewrite List.filter_app. cbn [List.filter].
  rewrite where_inserted_new.
  destruct (List.filter _ (reparto w)) as [|r0 [|r1 rest]]; simpl.
  - split; [done|]. by intros qr [= <-].
  - split; [done|]. discriminate.
  - split; [done|]. discriminate.
Qed.

Lemma or_num_or_num (v : option Z) (d : Z) :
  d ≠ 0 → or_num (Some (or_num v d)) d = or_num v d.
Proof.
  intros Hd. destruct v as [n|]; simpl.
  - destruct (n =? 0) eqn:Hn; [by rewrite (proj2 (Z.eqb_neq _ _) Hd)|by rewrite Hn].
  - by rewrite (proj2 (Z.eqb_neq _ _) Hd).
Qed.

(** X17. A registered delivery can be scanned in.  When [/api/enviar] has
    produced QR data for a new row whose id is fresh and not 0, scanning that
    data through [handleQrCodeEntry] does what [/api/qr-entrada] does for the
    new id: if the five positions of the delivery's site are held it assigns
    nothing, otherwise it starts an entrance at the lowest free position of
    that site, for the registered quantity. *)
Theorem registered_delivery_can_enter :
  ∀ (ADMIN_PWD : option string) (redirectURL : string) (currentTime new_id : Z)
    (req : EnviarRequest) (parse : string → option QrData) (now : Z) (w : World)
    (qr : QrData),
    ev_password req = ADMIN_PWD →
    new_id ≠ 0 →
    (∀ r, r ∈ reparto w → Some (r_id r) ≠ Some new_id) →
    (enviar ADMIN_PWD redirectURL currentTime new_id req w).2 = Some qr →
    let w1 := (enviar ADMIN_PWD redirectURL currentTime new_id req w).1.2 in
    handleQrCodeEntry parse now qr w1 = (qr_entrada now (mkRequest (Some new_id) None) w1).2
    ∧ ((site_full (ev_almacen req) (reparto w)
        ∧ handleQrCodeEntry parse now qr w1 = w1)
       ∨ ∃ pos : Z,
           lowest_free (ev_almacen req) (reparto w) pos
           ∧ currentOperation (sys (handleQrCodeEntry parse now qr w1))
             = Some {| op_type := entrada; position := pos;
                       op_cantidad := or_num (ev_cantidad req) 12;
                       productId := VNum new_id; op_almacen := ev_almacen req;
                       phase := picking_from_storage; agvTargetPosition := pos |}).
Proof.
  intros ADMIN_PWD redirectURL currentTime new_id req parse now w qr Hpwd Hne Hfresh Hqr w1.
  destruct (enviar_world ADMIN_PWD redirectURL currentTime new_id req w Hpwd) as [Hw1 Hdata].
  apply Hdata in Hqr. subst qr. fold w1 in Hw1.
  set (new := mkReparto new_id (ev_almacen req) (ev_lectura req) None
                (Some (or_num (ev_cantidad req) 12)) currentTime None) in *.
  assert (Hled : reparto w1 = reparto w ++ [new]) by (by rewrite Hw1).
  assert (Hrow : List.filter (Db.where_id (Some new_id)) (reparto w1) = [new]).
  { rewrite Hled, List.filter_app, (filter_where_id_nil _ _ Hfresh). simpl.
    by rewrite Z.eqb_refl. }
  assert (Hagree : handleQrCodeEntry parse now
                     (generateQRCode new_id (ev_lectura req) (or_num (ev_cantidad req) 12)) w1
                   = (qr_entrada now (mkRequest (Some new_id) None) w1).2).
  { apply handleQrCodeEntry_as_qr_entrada; [done|by rewrite Hrow|].
    intros product Hin Hid.
    assert (Hp : In product (List.filter (Db.where_id (Some new_id)) (reparto w1))).
    { apply filter_In. split; [by apply list_elem_of_In|]. by apply Z.eqb_eq. }
    rewrite Hrow in Hp. by destruct Hp as [<-|[]]. }
  split; [exact Hagree|]. rewrite Hagree.
  assert (Hused : usedLocationSet (ev_almacen req) (reparto w1)
                  = usedLocationSet (ev_almacen req) (reparto w)).
  { rewrite Hled. unfold usedLocationSet. by rewrite select_used_locations_unlocated. }
  unfold qr_entrada. cbn [body_id if_truthy]. rewrite (proj2 (Z.eqb_neq _ _) Hne), Hrow.
  cbn [Db.oneOrNone]. subst new. cbn [r_almacen r_cantidad]. rewrite Hused.
  rewrite or_num_or_num by discriminate.
  destruct (availablePosition _) as [pos|] eqn:Hpos.
  - right. exists pos. split; [by apply availablePosition_Some|].
    destruct w1 as [s1 t1 c1 tr1]. unfold with_sys. cbn [sys reparto mqttConnected trace].
    by rewrite dispatch_directriz_world.
  - left. split; [by apply availablePosition_None|done].
Qed.

Lemma registered_delivery_can_enter_witness :
  let req := mkEnviarRequest (Some "secret") "leche" "Gandia" (Some 4) in
  let w1 := (enviar (Some "secret") "/done" 50 43 req (world_of ledger_gandia true)).1.2 in
  ∃ pos : Z,
    lowest_free "Gandia" ledger_gandia pos
    ∧ position <$> currentOperation
        (sys (handleQrCodeEntry sample_JSON_parse_qr 1000
                (generateQRCode 43 "leche" 4) w1)) = Some pos.
Proof.
  intros req w1.
  assert (Hne : 43 ≠ 0) by discriminate.
  assert (Hfresh : ∀ r, r ∈ reparto (world_of ledger_gandia true)
                        → Some (r_id r) ≠ Some 43).
  { intros r Hin. apply list_elem_of_In in Hin.
    destruct Hin as [<-|[<-|[]]]; discriminate. }
  destruct (registered_delivery_can_enter (Some "secret") "/done" 50 43 req
              sample_JSON_parse_qr 1000 (world_of ledger_gandia true)
              (generateQRCode 43 "leche" 4) eq_refl Hne Hfresh eq_refl)
    as [_ [[_ Hfull]|(pos & Hlow & Hop)]].
  - vm_compute in Hfull. discriminate Hfull.
  - exists pos. split; [exact Hlow|]. subst w1. by rewrite Hop.
Defined.

(** ** The product catalogue *)

Lemma substring_all (s : string) : String.substring 0 (String.length s) s = s.
Proof. induction s as [|c s IH]; simpl; [done|]. by rewrite IH. Qed.

Lemma bearer_token_Bearer (token : string) :
  bearer_token (Some ("Bearer " +:+ token)) = Some token.
Proof.
  unfold bearer_token. simpl. rewrite Nat.sub_0_r.
  destruct token as [|c token]; simpl; [done|]. by rewrite substring_all.
Qed.

(** X18. Authorization of the catalogue routes.  A header ["Bearer <token>"]
    yields the token; with such a header the request is served exactly when
    the token is [ADMIN_PWD], and a wrong token is answered 403 "Invalid
    authorization token" without falling back to the form password, even a
    correct one.  Without a bearer header the form password decides.  A
    rejected request leaves the catalogue unchanged. *)
Theorem catalogue_authorization :
  ∀ (ADMIN_PWD : option string) (error_message : JsError → string) (id : string)
    (req : ProductRequest) (t : list Reparto) (productos : list Producto),
    (∀ token : string,
       hdr_authorization req = Some ("Bearer " +:+ token) →
       Some token ≠ ADMIN_PWD →
       productos_add ADMIN_PWD error_message req productos
         = ({| status := 403; body := VStr "Invalid authorization token" |}, productos)
       ∧ productos_remove ADMIN_PWD error_message id req t productos
         = ({| status := 403; body := VStr "Invalid authorization token" |}, productos))
    ∧ (bearer_token (hdr_authorization req) = None →
       pr_password req ≠ ADMIN_PWD →
       productos_add ADMIN_PWD error_message req productos
         = ({| status := 403; body := VStr "Forbidden" |}, productos)
       ∧ productos_remove ADMIN_PWD error_message id req t productos
         = ({| status := 403; body := VStr "Forbidden" |}, productos))
    ∧ (catalogue_authorized ADMIN_PWD req →
       status (productos_add ADMIN_PWD error_message req productos).1 ∈ [201; 409; 500]
       ∧ status (productos_remove ADMIN_PWD error_message id req t productos).1
         ∈ [200; 404; 409; 500]).
Proof.
  intros ADMIN_PWD error_message id req t productos.
  unfold productos_add, productos_remove, catalogue_guard, catalogue_authorized.
  split; [|split].
  - intros token Hhdr Hbad. rewrite Hhdr, bearer_token_Bearer.
    destruct (strict_eq_str (Some token) ADMIN_PWD) eqn:Heq; [|done].
    by apply strict_eq_str_true in Heq.
  - intros Hnone Hbad. rewrite Hnone.
    by rewrite (verifyPwd_reject ADMIN_PWD (mkRequest None (pr_password req)) Hbad).
  - assert (Hadd : status (add_product error_message req productos).1 ∈ [201; 409; 500]).
    { unfold add_product. destruct (Pg.oneOrNone _) as [e|[p|]]; simpl;
        apply list_elem_of_In; simpl; tauto. }
    assert (Hrem : status (remove_product error_message id t productos).1
                   ∈ [200; 404; 409; 500]).
    { unfold remove_product. destruct (Pg.oneOrNone _) as [e|[p|]]; simpl;
        [apply list_elem_of_In; simpl; tauto| |apply list_elem_of_In; simpl; tauto].
      destruct (Pg.oneOrNone _) as [e|[r|]]; simpl; apply list_elem_of_In; simpl; tauto. }
    destruct (bearer_token (hdr_authorization req)) as [token|]; intros Hauth.
    + by rewrite (proj2 (strict_eq_str_true _ _) Hauth).
    + by rewrite (verifyPwd_pass ADMIN_PWD (mkRequest None (pr_password req)) Hauth).
Qed.

Lemma catalogue_authorization_witness :
  let req := mkProductRequest (Some "Bearer guess") (Some "secret") "sal" "Sal" 100 in
  productos_add (Some "secret") sample_error_message req catalogue_sample
    = ({| status := 403; body := VStr "Invalid authorization token" |}, catalogue_sample)
  ∧ status (productos_add (Some "secret") sample_error_message
              (mkProductRequest (Some "Bearer secret") None "sal" "Sal" 100)
              catalogue_sample).1 ∈ [201; 409; 500]
  ∧ productos_remove (Some "secret") sample_error_message "pan"
      (mkProductRequest (Some "Basic abc") None "" "" 0) [] catalogue_sample
    = ({| status := 403; body := VStr "Forbidden" |}, catalogue_sample).
Proof.
  intros req.
  assert (H1 : Some "guess" ≠ Some "secret") by discriminate.
  assert (H2 : @None string ≠ Some "secret") by discriminate.
  destruct (catalogue_authorization (Some "secret") sample_error_message "pan" req []
              catalogue_sample) as (Hwrong & _ & _).
  destruct (catalogue_authorization (Some "secret") sample_error_message "pan"
              (mkProductRequest (Some "Bearer secret") None "sal" "Sal" 100) []
              catalogue_sample) as (_ & _ & Hserved).
  destruct (catalogue_authorization (Some "secret") sample_error_message "pan"
              (mkProductRequest (Some "Basic abc") None "" "" 0) []
              catalogue_sample) as (_ & Hform & _).
  split; [exact (proj1 (Hwrong "guess" eq_refl H1))|].
  split; [exact (proj1 (Hserved eq_refl))|exact (proj2 (Hform eq_refl H2))].
Defined.

Lemma productos_authorized (ADMIN_PWD : option string) (error_message : JsError → string)
    (id : string) (req : ProductRequest) (t : list Reparto) (productos : list Producto) :
  catalogue_authorized ADMIN_PWD req →
  productos_add ADMIN_PWD error_message req productos
    = add_product error_message req productos
  ∧ productos_remove ADMIN_PWD error_message id req t productos
    = remove_product error_message id t productos.
Proof.
  unfold productos_add, productos_remove, catalogue_guard, catalogue_authorized.
  destruct (bearer_token (hdr_authorization req)) as [token|]; intros Hauth.
  - by rewrite (proj2 (strict_eq_str_true _ _) Hauth).
  - by rewrite (verifyPwd_pass ADMIN_PWD (mkRequest None (pr_password req)) Hauth).
Qed.

Lemma productos_unchanged_or_served (ADMIN_PWD : option string)
    (error_message : JsError → string) (id : string) (req : ProductRequest)
    (t : list Reparto) (productos : list Producto) :
  ((productos_add ADMIN_PWD error_message req productos).2 = productos
   ∨ productos_add ADMIN_PWD error_message req productos
     = add_product error_message req productos)
  ∧ ((productos_remove ADMIN_PWD error_message id req t productos).2 = productos
     ∨ productos_remove ADMIN_PWD error_message id req t productos
       = remove_product error_message id t productos).
Proof.
  unfold productos_add, productos_remove, catalogue_guard.
  destruct (bearer_token (hdr_authorization req)) as [token|].
  - destruct (strict_eq_str _ _); split; (by left) || (by right).
  - destruct (verifyPwd _ _); split; (by left) || (by right).
Qed.

Lemma filter_where_p_id_nil (id : string) (productos : list Producto) :
  (∀ p, p ∈ productos → p_id p ≠ id) → List.filter (where_p_id id) productos = [].
Proof.
  intros Hfresh. induction productos as [|p ps IH]; [done|]. simpl.
  unfold where_p_id at 1.
  rewrite (proj2 (String.eqb_neq _ _) (Hfresh p (list_elem_of_here _ _))).
  apply IH. intros q Hq. apply Hfresh. by right.
Qed.

(** X19. Adding a product.  An authorized request for an id that is not in
    the catalogue answers 201 and appends the product; a second authorized
    request for the same id then answers 409 and changes nothing. *)
Theorem product_added_once :
  ∀ (ADMIN_PWD : option string) (error_message : JsError → string)
    (req req' : ProductRequest) (productos : list Producto),
    catalogue_authorized ADMIN_PWD req →
    catalogue_authorized ADMIN_PWD req' →
    pr_id req' = pr_id req →
    (∀ p, p ∈ productos → p_id p ≠ pr_id req) →
    let added := productos_add ADMIN_PWD error_message req productos in
    status added.1 = 201
    ∧ added.2 = productos ++ [mkProducto (pr_id req) (pr_producto req) (pr_shelf_life req)]
    ∧ productos_add ADMIN_PWD error_message req' added.2
      = ({| status := 409;
            body := VStr ("Product with ID " +:+ pr_id req +:+ " already exists") |},
         added.2).
Proof.
  intros ADMIN_PWD error_message req req' productos Hauth Hauth' Hid Hfresh added.
  subst added.
  rewrite (proj1 (productos_authorized ADMIN_PWD error_message "" req [] _ Hauth)).
  rewrite (proj1 (productos_authorized ADMIN_PWD error_message "" req' [] _ Hauth')).
  unfold add_product at 1 2 4. rewrite (filter_where_p_id_nil _ _ Hfresh).
  cbn [Pg.oneOrNone fst snd status]. split; [done|]. split; [done|].
  unfold add_product. rewrite Hid, List.filter_app, (filter_where_p_id_nil _ _ Hfresh).
  simpl. unfold where_p_id. simpl. by rewrite String.eqb_refl.
Qed.

Lemma product_added_once_witness :
  let req := mkProductRequest (Some "Bearer secret") None "sal" "Sal" 100 in
  let again := mkProductRequest None (Some "secret") "sal" "Sal fina" 90 in
  let added := productos_add (Some "secret") sample_error_message req catalogue_sample in
  status added.1 = 201
  ∧ status (productos_add (Some "secret") sample_error_message again added.2).1 = 409.
Proof.
  intros req again added.
  assert (Hfresh : ∀ p, p ∈ catalogue_sample → p_id p ≠ "sal").
  { intros p Hin. apply list_elem_of_In in Hin.
    destruct Hin as [<-|[<-|[]]]; discriminate. }
  destruct (product_added_once (Some "secret") sample_error_message req again
              catalogue_sample eq_refl eq_refl eq_refl Hfresh) as (Hst & _ & Hagain).
  split; [exact Hst|]. subst added. by rewrite Hagain.
Defined.

(** X20. The catalogue routes keep product ids unique: if no two products
    share an id, the same holds after any add or remove request. *)
Theorem catalogue_ids_stay_unique :
  ∀ (ADMIN_PWD : option string) (error_message : JsError → string) (id : string)
    (req : ProductRequest) (t : list Reparto) (productos : list Producto),
    NoDup (p_id <$> productos) →
    NoDup (p_id <$> (productos_add ADMIN_PWD error_message req productos).2)
    ∧ NoDup (p_id <$> (productos_remove ADMIN_PWD error_message id req t productos).2).
Proof.
  intros ADMIN_PWD error_message id req t productos Hdup.
  destruct (productos_unchanged_or_served ADMIN_PWD error_message id req t productos)
    as [[Ha|Ha] [Hr|Hr]]; rewrite Ha, Hr; clear Ha Hr.
  all: split; try done.
  all: try (unfold add_product;
            destruct (Pg.oneOrNone _) as [e|[p|]] eqn:Hrow; [done|done|];
            cbn [snd]; rewrite fmap_app; apply NoDup_app; split; [done|];
            split; [|apply NoDup_singleton];
            intros x Hx Hx'; apply list_elem_of_In in Hx' as [<-|[]];
            apply list_elem_of_fmap in Hx as (q & Hq & Hin);
            assert (Hsel : In q (List.filter (where_p_id (pr_id req)) productos))
              by (apply filter_In; split;
                  [by apply list_elem_of_In|by apply String.eqb_eq]);
            by destruct (List.filter (where_p_id (pr_id req)) productos) as [|? [|? ?]]).
  all: unfold remove_product;
    destruct (Pg.oneOrNone _) as [e|[p|]]; [done| |done];
    destruct (Pg.oneOrNone _) as [e|[r|]]; [done|done|];
    cbn [snd]; clear -Hdup;
    induction productos as [|q ps IH]; [done|]; simpl;
    apply NoDup_cons in Hdup as [Hq Hps];
    destruct (where_p_id id q); simpl; [by apply IH|];
    apply NoDup_cons; split; [|by apply IH];
    intros Hin; apply Hq;
    apply list_elem_of_fmap in Hin as (q' & -> & Hin);
    apply list_elem_of_fmap; exists q'; split; [done|];
    apply list_elem_of_In, filter_In in Hin as [Hin _]; by apply list_elem_of_In.
Qed.

Lemma catalogue_ids_stay_unique_witness :
  NoDup (p_id <$> (productos_add (Some "secret") sample_error_message
                     (mkProductRequest (Some "Bearer secret") None "sal" "Sal" 100)
                     catalogue_sample).2)
  ∧ NoDup (p_id <$> (productos_remove (Some "secret") sample_error_message "leche"
                       (mkProductRequest None (Some "secret") "" "" 0) []
                       catalogue_sample).2).
Proof.
  assert (Hdup : NoDup (p_id <$> catalogue_sample)).
  { apply (bool_decide_unpack _). vm_compute. reflexivity. }
  split.
  - exact (proj1 (catalogue_ids_stay_unique (Some "secret") sample_error_message "leche"
                    (mkProductRequest (Some "Bearer secret") None "sal" "Sal" 100) []
                    catalogue_sample Hdup)).
  - exact (proj2 (catalogue_ids_stay_unique (Some "secret") sample_error_message "leche"
                    (mkProductRequest None (Some "secret") "" "" 0) []
                    catalogue_sample Hdup)).
Defined.

(** X21. A product in use is never deleted.  Whenever some ledger row names
    the product in [lectura], a remove request leaves the catalogue as it is
    and does not answer 200: for an authorized request on a catalogued
    product the answer is 409 when exactly one row names it and 500 when
    several do. *)
Theorem product_in_use_is_kept :
  ∀ (ADMIN_PWD : option string) (error_message : JsError → string) (id : string)
    (req : ProductRequest) (t : list Reparto) (productos : list Producto),
    (∃ r, r ∈ t ∧ r_lectura r = id) →
    (productos_remove ADMIN_PWD error_message id req t productos).2 = productos
    ∧ status (productos_remove ADMIN_PWD error_message id req t productos).1 ≠ 200
    ∧ (catalogue_authorized ADMIN_PWD req →
       ∀ p, List.filter (where_p_id id) productos = [p] →
         status (productos_remove ADMIN_PWD error_message id req t productos).1
         = if decide (length (List.filter (Db.where_lectura (Some id)) t) = 1%nat)
           then 409 else 500).
Proof.
  intros ADMIN_PWD error_message id req t productos (r & Hin & Hr).
  assert (Hused : List.filter (Db.where_lectura (Some id)) t ≠ []).
  { intros Hnil. apply filter_nil_Forall in Hnil.
    apply (proj1 (Forall_forall _ _) Hnil) in Hin. simpl in Hin.
    apply String.eqb_neq in Hin. done. }
  assert (Hcore : (remove_product error_message id t productos).2 = productos
                  ∧ status (remove_product error_message id t productos).1 ≠ 200
                  ∧ ∀ p, List.filter (where_p_id id) productos = [p] →
                      status (remove_product error_message id t productos).1
                      = if decide (length (List.filter (Db.where_lectura (Some id)) t)
                                   = 1%nat)
                        then 409 else 500).
  { unfold remove_product.
    destruct (List.filter (Db.where_lectura (Some id)) t) as [|r1 [|r2 rest]]; [done| |].
    - destruct (Pg.oneOrNone _) as [e|[p|]] eqn:Hp; simpl.
      + split; [done|]. split; [done|]. intros p Hrow. by rewrite Hrow in Hp.
      + done.
      + split; [done|]. split; [done|]. intros p Hrow. by rewrite Hrow in Hp.
    - destruct (Pg.oneOrNone _) as [e|[p|]] eqn:Hp; simpl.
      + split; [done|]. split; [done|]. intros p Hrow. by rewrite Hrow in Hp.
      + done.
      + split; [done|]. split; [done|]. intros p Hrow. by rewrite Hrow in Hp. }
  destruct Hcore as (Hkeep & Hstatus & Hcode).
  unfold productos_remove, catalogue_guard, catalogue_authorized.
  destruct (bearer_token (hdr_authorization req)) as [token|].
  - destruct (strict_eq_str (Some token) ADMIN_PWD) eqn:Heq.
    + done.
    + split; [done|]. split; [done|]. intros Hauth.
      apply strict_eq_str_true in Hauth. congruence.
  - unfold verifyPwd. cbn [body_password].
    destruct (strict_eq_str (pr_password req) ADMIN_PWD) eqn:Heq.
    + done.
    + split; [done|]. split; [done|]. intros Hauth.
      apply strict_eq_str_true in Hauth. congruence.
Qed.

Lemma product_in_use_is_kept_witness :
  let req := mkProductRequest None (Some "secret") "" "" 0 in
  (productos_remove (Some "secret") sample_error_message "pan" req
     ledger_fresh catalogue_sample).2 = catalogue_sample
  ∧ status (productos_remove (Some "secret") sample_error_message "pan" req
              ledger_fresh catalogue_sample).1 = 409
  ∧ status (productos_remove (Some "secret") sample_error_message "pan" req
              (ledger_fresh ++ ledger_gandia) catalogue_sample).1 = 500.
Proof.
  intros req.
  assert (Hin : ∃ r, r ∈ ledger_fresh ∧ r_lectura r = "pan").
  { exists (row 7 "Gandia" "pan" (Some 1) (Some 6)). split; [|done].
    apply list_elem_of_In. right. by left. }
  assert (Hin2 : ∃ r, r ∈ ledger_fresh ++ ledger_gandia ∧ r_lectura r = "pan").
  { destruct Hin as (r & Hr & Hl). exists r. split; [|done]. apply elem_of_app. by left. }
  destruct (product_in_use_is_kept (Some "secret") sample_error_message "pan" req
              ledger_fresh catalogue_sample Hin) as (Hkeep & _ & Hcode).
  destruct (product_in_use_is_kept (Some "secret") sample_error_message "pan" req
              (ledger_fresh ++ ledger_gandia) catalogue_sample Hin2) as (_ & _ & Hcode2).
  split; [exact Hkeep|].
  split; [exact (Hcode eq_refl (mkProducto "pan" "Pan de molde" 3) eq_refl)|].
  exact (Hcode2 eq_refl (mkProducto "pan" "Pan de molde" 3) eq_refl).
Defined.

(** X22. Add then remove is a round trip on the catalogue.  For an id that
    is neither in the catalogue nor named by a ledger row, an authorized add
    followed by an authorized remove of that id answers 200 and gives back
    the catalogue of before; removing it once more answers 404. *)
Theorem product_add_then_remove :
  ∀ (ADMIN_PWD : option string) (error_message : JsError → string)
    (req req' : ProductRequest) (t : list Reparto) (productos : list Producto),
    catalogue_authorized ADMIN_PWD req →
    catalogue_authorized ADMIN_PWD req' →
    (∀ p, p ∈ productos → p_id p ≠ pr_id req) →
    (∀ r, r ∈ t → r_lectura r ≠ pr_id req) →
    let added := (productos_add ADMIN_PWD error_message req productos).2 in
    let removed := productos_remove ADMIN_PWD error_message (pr_id req) req' t added in
    status removed.1 = 200
    ∧ removed.2 = productos
    ∧ productos_remove ADMIN_PWD error_message (pr_id req) req' t removed.2
      = ({| status := 404;
            body := VStr ("Product with ID " +:+ pr_id req +:+ " not found") |},
         productos).
Proof.
  intros ADMIN_PWD error_message req req' t productos Hauth Hauth' Hfresh Hfree
    added removed.
  assert (Hunused : List.filter (Db.where_lectura (Some (pr_id req))) t = []).
  { induction t as [|r t IH]; [done|]. simpl.
    rewrite (proj2 (String.eqb_neq _ _) (Hfree r (list_elem_of_here _ _))).
    apply IH. intros r' Hr'. apply Hfree. by right. }
  assert (Hadded : added = productos
                           ++ [mkProducto (pr_id req) (pr_producto req) (pr_shelf_life req)]).
  { subst added.
    rewrite (proj1 (productos_authorized ADMIN_PWD error_message "" req [] _ Hauth)).
    unfold add_product. by rewrite (filter_where_p_id_nil _ _ Hfresh). }
  assert (Hremoved : removed
                     = ({| status := 200;
                           body := VObj [("success", VBool true);
                                         ("message", VStr "Producto eliminado correctamente");
                                         ("id", VStr (pr_id req))] |}, productos)).
  { subst removed.
    rewrite (proj2 (productos_authorized ADMIN_PWD error_message (pr_id req) req' t _ Hauth')).
    unfold remove_product. rewrite Hadded, Hunused, !List.filter_app.
    rewrite (filter_where_p_id_nil _ _ Hfresh). simpl. unfold where_p_id at 1 2. simpl.
    rewrite String.eqb_refl. simpl. unfold where_p_id at 1. simpl.
    rewrite String.eqb_refl. simpl. rewrite app_nil_r.
    pose proof (filter_unselected (where_p_id (pr_id req)) _
                  (filter_where_p_id_nil _ _ Hfresh)) as Hkept.
    cbv beta delta [where_p_id] in Hkept. by rewrite Hkept. }
  rewrite Hremoved. cbn [fst snd status]. split; [done|]. split; [done|].
  rewrite (proj2 (productos_authorized ADMIN_PWD error_message (pr_id req) req' t _ Hauth')).
  unfold remove_product. by rewrite (filter_where_p_id_nil _ _ Hfresh).
Qed.

Lemma product_add_then_remove_witness :
  let req := mkProductRequest (Some "Bearer secret") None "sal" "Sal" 100 in
  let added := (productos_add (Some "secret") sample_error_message req catalogue_sample).2 in
  (productos_remove (Some "secret") sample_error_message "sal" req ledger_fresh added).2
  = catalogue_sample.
Proof.
  intros req added.
  assert (Hfresh : ∀ p, p ∈ catalogue_sample → p_id p ≠ "sal").
  { intros p Hin. apply list_elem_of_In in Hin.
    destruct Hin as [<-|[<-|[]]]; discriminate. }
  assert (Hfree : ∀ r, r ∈ ledger_fresh → r_lectura r ≠ "sal").
  { intros r Hin. apply list_elem_of_In in Hin.
    destruct Hin as [<-|[<-|[]]]; discriminate. }
  exact (proj1 (proj2 (product_add_then_remove (Some "secret") sample_error_message
                         req req ledger_fresh catalogue_sample eq_refl eq_refl
                         Hfresh Hfree))).
Defined.

(** ** Emergency stop without a connection *)

(** X23. An emergency stop that cannot reach the devices still clears the
    state.  While the client is not connected (as after an [offline] or
    [error] event, or before the first [connect]), an emergency message
    transmits none of the stop directives, and yet sets [emergencyStop] and
    drops the active operation. *)
Theorem emergency_stop_while_disconnected :
  ∀ (parseInt : string → JsNum) (JSON_parse : string → option JsVal)
    (JSON_parse_qr : string → option QrData) (now : Z) (payload : string) (w : World),
    (mqttConnected w = false →
     let r := on_message parseInt JSON_parse JSON_parse_qr now topic_emergencia payload w in
     transmitted (trace r.2) = transmitted (trace w)
     ∧ emergencyStop (sys r.2) = true
     ∧ currentOperation (sys r.2) = None
     ∧ pendingBoxes (sys r.2) = 0)
    ∧ mqttConnected (on_offline w) = false
    ∧ mqttConnected (on_error w) = false
    ∧ (emergency_almacen (sys w) = "Vera" →
       length (transmitted
                 (trace (on_message parseInt JSON_parse JSON_parse_qr now topic_emergencia
                           payload (on_connect w)).2))
       = (length (transmitted (trace w)) + 4)%nat).
Proof.
  intros parseInt JSON_parse JSON_parse_qr now payload w.
  assert (Hstep : ∀ v,
            on_message parseInt JSON_parse JSON_parse_qr now topic_emergencia payload v
            = (Normal, handleEmergencyStop (with_sys (set_emergencyStop true) v)))
    by done.
  split; [|split; [done|split; [done|]]].
  - intros Hoff r. subst r. rewrite Hstep. cbn [snd].
    rewrite sys_handleEmergencyStop, trace_handleEmergencyStop.
    cbn [with_sys sys trace mqttConnected]. rewrite Hoff, transmitted_app.
    split; [|done].
    destruct (String.eqb _ _); simpl; by rewrite app_nil_r.
  - intros Hsite. rewrite Hstep. cbn [snd]. rewrite trace_handleEmergencyStop.
    cbn [with_sys sys trace mqttConnected on_connect].
    replace (emergency_almacen (set_emergencyStop true (sys w))) with "Vera" by done.
    rewrite transmitted_app, length_app. done.
Qed.

Lemma emergency_stop_while_disconnected_witness :
  let w := world_with_operation (operation_at "Vera" 2) true in
  let r := on_message sample_parseInt sample_JSON_parse sample_JSON_parse_qr 1000
             topic_emergencia "stop" (on_offline w) in
  transmitted (trace r.2) = []
  ∧ currentOperation (sys r.2) = None
  ∧ length (transmitted
              (trace (on_message sample_parseInt sample_JSON_parse sample_JSON_parse_qr
                        1000 topic_emergencia "stop" (on_connect (on_offline w))).2))
    = 4%nat.
Proof.
  intros w r.
  destruct (emergency_stop_while_disconnected sample_parseInt sample_JSON_parse
              sample_JSON_parse_qr 1000 "stop" (on_offline w)) as (Hoff & _ & _ & Hon).
  destruct (Hoff eq_refl) as (Hsent & _ & Hop & _).
  split; [exact Hsent|]. split; [exact Hop|]. exact (Hon eq_refl).
Defined.
